(** * ChatCraft serverless functions: the sharing gateway and the login handler

    A shallow embedding of

    - [functions/api/share/[[user_id]].ts]: [onRequestPut], [onRequestGet]
      and [onRequestDelete], the handlers of [/api/share/{user}/{id}];
    - the login function ([handleLogin]).

    Handlers are asynchronous JavaScript functions that return a [Response]
    from several places and wrap their calls in [try]/[catch].  They are
    embedded in a small monad with three ways of leaving a computation: going
    on with a value, [return]ing a response, and throwing.  The R2 bucket the
    handlers talk to is the state of that monad. *)

From stdpp Require Import gmap strings list fin_maps pretty.
From Stdlib Require Import ZArith Lia Ascii.

Local Open Scope Z_scope.
Local Open Scope string_scope.

(** ** JavaScript values used by the handlers *)

Module JS.

(** [!x] for a value that is a string, [null] or [undefined]: the empty
    string is falsy as well. *)
Definition truthy (x : option string) : option string :=
  match x with
  | Some EmptyString => None
  | other => other
  end.

(** [s.includes(sub)] *)
Fixpoint includes (s sub : string) : bool :=
  String.prefix sub s ||
  match s with
  | EmptyString => false
  | String _ rest => includes rest sub
  end.

(** [x?.includes(sub)], whose [undefined] is falsy. *)
Definition opt_includes (x : option string) (sub : string) : bool :=
  match x with
  | Some s => includes s sub
  | None => false
  end.

(** [a === b] on values that are strings or [undefined]. *)
Definition strict_eq (a b : option string) : bool := bool_decide (a = b).

(** [xs.join(sep)] *)
Definition join (sep : string) (xs : list string) : string :=
  String.concat sep xs.

(** The double quote character, for the output of [JSON.stringify]. *)
Definition dquote : string :=
  String (Ascii.Ascii false true false false false true false false) EmptyString.

(** [JSON.stringify({ message })] for a message without characters that
    need escaping (the handlers pass constants). *)
Definition JSON_stringify_message (message : string) : string :=
  "{" +:+ dquote +:+ "message" +:+ dquote +:+ ":" +:+
  dquote +:+ message +:+ dquote +:+ "}".

(** A value awaited by a handler: the promise is fulfilled with a value or
    rejected with an error, of which only the message is used. *)
Inductive Outcome (A : Type) : Type :=
| Val (a : A)
| Exn (message : string).
Global Arguments Val {A} a.
Global Arguments Exn {A} message.

End JS.
Export JS.

(** ** Headers, requests and responses of the Fetch API *)

Module Fetch.

Definition lower_ascii (c : Ascii.ascii) : Ascii.ascii :=
  let n := Ascii.nat_of_ascii c in
  if ((65 <=? n) && (n <=? 90))%nat then Ascii.ascii_of_nat (n + 32) else c.

Fixpoint lower (s : string) : string :=
  match s with
  | EmptyString => EmptyString
  | String c rest => String (lower_ascii c) (lower rest)
  end.

(** Header names are compared without regard to case. *)
Definition same_name (a b : string) : bool := String.eqb (lower a) (lower b).

(** A header list in insertion order, as [new Headers([...])] builds it. *)
Definition Headers := list (string * string).

Definition values_of (name : string) (hs : Headers) : list string :=
  List.map snd (List.filter (fun h => same_name (fst h) name) hs).

(** [headers.get(name)]: the values under that name joined by a comma and
    a space, [null] when there is none. *)
Definition headers_get (name : string) (hs : Headers) : option string :=
  match values_of name hs with
  | [] => None
  | vs => Some (join ", " vs)
  end.

Definition headers_delete (name : string) (hs : Headers) : Headers :=
  List.filter (fun h => negb (same_name (fst h) name)) hs.

(** [headers.set(name, value)]: the first header of that name takes the new
    value and the others are removed; a new name is appended. *)
Fixpoint headers_set (name value : string) (hs : Headers) : Headers :=
  match hs with
  | [] => [(name, value)]
  | (n, v) :: rest =>
      if same_name n name then (n, value) :: headers_delete name rest
      else (n, v) :: headers_set name value rest
  end.

(** [headers.getSetCookie()] *)
Definition getSetCookie (hs : Headers) : list string := values_of "Set-Cookie" hs.

(** The HTTP whitespace bytes: tab, line feed, carriage return and space. *)
Definition is_http_whitespace (c : Ascii.ascii) : bool :=
  let n := Ascii.nat_of_ascii c in
  ((n =? 9) || (n =? 10) || (n =? 13) || (n =? 32))%nat.

Fixpoint strip_leading (s : string) : string :=
  match s with
  | EmptyString => EmptyString
  | String c rest => if is_http_whitespace c then strip_leading rest else s
  end.

Fixpoint strip_trailing (s : string) : string :=
  match s with
  | EmptyString => EmptyString
  | String c rest =>
      match strip_trailing rest with
      | EmptyString => if is_http_whitespace c then EmptyString else String c EmptyString
      | kept => String c kept
      end
  end.

(** A header value is normalized when it is appended: the HTTP whitespace at
    its two ends is removed. *)
Definition normalize_value (v : string) : string := strip_trailing (strip_leading v).

(** A normalized value is a header value when it holds none of NUL, line
    feed and carriage return. *)
Fixpoint is_header_value (v : string) : bool :=
  match v with
  | EmptyString => true
  | String c rest =>
      let n := Ascii.nat_of_ascii c in
      negb ((n =? 0) || (n =? 10) || (n =? 13))%nat && is_header_value rest
  end.

(** [new Headers(init)] for an array of pairs whose names are header names,
    as those the handlers write are: each value is normalized, and a value
    that is then not a header value makes the constructor throw a
    [TypeError], whose message is the one of the runtime. *)
Definition Headers_new (init : list (string * string)) : Outcome Headers :=
  let hs := List.map (fun h => (fst h, normalize_value (snd h))) init in
  if forallb (fun h => is_header_value (snd h)) hs then Val hs
  else Exn "Invalid header value.".

(** A body is [null] or a stream of bytes, kept as a string. *)
Definition Body := option string.

Record Request := {
  req_headers : Headers;
  req_body : Body;
}.

Record Response := {
  body : Body;
  status : Z;
  headers : Headers;
}.

(** [Response.redirect(url, status)]: an empty response that carries the
    target in its [Location] header.  The normalisation of [url] by the URL
    parser is not modelled. *)
Definition Response_redirect (url : string) (st : Z) : Response :=
  {| body := None; status := st; headers := [("Location", url)] |}.

End Fetch.
Export Fetch.

(** Modelled from the spec: [errorResponse] of [functions/utils.ts], which is
    not among the sources.  Section 7: API failures return structured error
    responses with an explicit status code and message, with no partial side
    effects (no object written, no cookies set).  The response has the status
    and the message it is given and no header; a content type the helper may
    add is not modelled. *)
Definition errorResponse (statusCode : Z) (message : string) : Response :=
  {| body := Some message; status := statusCode; headers := [] |}.

(** ** The control monad of a handler *)

Module Control.

(** How a piece of a handler ends: it goes on with a value, it [return]s a
    response from the handler, or it throws. *)
Inductive Ctl (A : Type) : Type :=
| Next (a : A)
| Return (r : Response)
| Throw (message : string).
Global Arguments Next {A} a.
Global Arguments Return {A} r.
Global Arguments Throw {A} message.

Definition M (S A : Type) : Type := S -> Ctl A * S.

Definition ret {S A} (a : A) : M S A := fun s => (Next a, s).

Definition bind {S A B} (m : M S A) (k : A -> M S B) : M S B :=
  fun s =>
    match m s with
    | (Next a, s') => k a s'
    | (Return r, s') => (Return r, s')
    | (Throw e, s') => (Throw e, s')
    end.

(** [return r;] *)
Definition return_ {S A} (r : Response) : M S A := fun s => (Return r, s).

(** [await p] *)
Definition await {S A} (p : Outcome A) : M S A :=
  fun s =>
    match p with
    | Val a => (Next a, s)
    | Exn e => (Throw e, s)
    end.

(** [try { body } catch (err) { handler(err.message) }]: a [return] inside
    the body leaves the handler, only a throw reaches the [catch]. *)
Definition try_catch {S A} (body : M S A) (handler : string -> M S A) : M S A :=
  fun s =>
    match body s with
    | (Throw e, s') => handler e s'
    | other => other
    end.

(** The body of a handler ends by [return] or by an uncaught throw: it never
    falls off its end. *)
Definition Handler (S : Type) : Type := M S Empty_set.

End Control.
Export Control.

Notation "'do' x <- m ; k" := (bind m (fun x => k))
  (at level 10, x name, m at level 100, k at level 200).

(** ** The R2 bucket *)

Module R2.

(** [R2HTTPMetadata] *)
Record R2HTTPMetadata := {
  contentType : option string;
  contentLanguage : option string;
  contentDisposition : option string;
  contentEncoding : option string;
  cacheControl : option string;
  cacheExpiry : option string;
}.

Definition no_metadata : R2HTTPMetadata :=
  {| contentType := None; contentLanguage := None; contentDisposition := None;
     contentEncoding := None; cacheControl := None; cacheExpiry := None |}.

(** [R2ObjectBody]: what the handlers read of a stored object.  [uploaded]
    is [uploaded.getTime()], in milliseconds. *)
Record R2Object := {
  obj_key : string;
  obj_body : string;
  httpMetadata : R2HTTPMetadata;
  httpEtag : string;
  uploaded : Z;
}.

Inductive R2Op := OpList | OpGet | OpPut | OpDelete.

Global Instance R2Op_eq_dec : EqDecision R2Op.
Proof. solve_decision. Defined.

(** The bucket bound as [CHATCRAFT_ORG_BUCKET]: the stored objects by key,
    and for each operation whether the store fails it and with which
    error message. *)
Record R2Bucket := {
  objects : gmap string R2Object;
  fault : R2Op -> option string;
}.

Definition with_objects (b : R2Bucket) (m : gmap string R2Object) : R2Bucket :=
  {| objects := m; fault := fault b |}.

(** The objects under a prefix.  A listing holds at most 1000 objects, the
    default limit of [list]; their order is not modelled. *)
Definition listing (b : R2Bucket) (prefix : string) : list R2Object :=
  take 1000
    (List.map snd
       (List.filter (fun kv => String.prefix prefix (fst kv))
          (map_to_list (objects b)))).

(** [await bucket.list({ prefix })], of which the handlers read [objects]. *)
Definition list_ (prefix : string) : M R2Bucket (list R2Object) :=
  fun b =>
    match fault b OpList with
    | Some e => (Throw e, b)
    | None => (Next (listing b prefix), b)
    end.

(** [await bucket.get(key)] *)
Definition get (key : string) : M R2Bucket (option R2Object) :=
  fun b =>
    match fault b OpGet with
    | Some e => (Throw e, b)
    | None => (Next (objects b !! key), b)
    end.

Section Store.
(** The ETag R2 computes for a body, and the time of the upload. *)
Variable etag_of : string -> string.
Variable now : Z.

(** The object a [put] with no options stores: the bytes of the body, no HTTP
    metadata. *)
Definition stored (key : string) (value : Body) : R2Object :=
  let bytes := default EmptyString value in
  {| obj_key := key; obj_body := bytes; httpMetadata := no_metadata;
     httpEtag := etag_of bytes; uploaded := now |}.

(** [await bucket.put(key, body)]: the object replaces the one under [key]. *)
Definition put (key : string) (value : Body) : M R2Bucket unit :=
  fun b =>
    match fault b OpPut with
    | Some e => (Throw e, b)
    | None => (Next tt, with_objects b (<[key := stored key value]> (objects b)))
    end.
End Store.

(** [await bucket.delete(key)]: deleting a key that is absent is not an
    error. *)
Definition delete (key : string) : M R2Bucket unit :=
  fun b =>
    match fault b OpDelete with
    | Some e => (Throw e, b)
    | None => (Next tt, with_objects b (base.delete key (objects b)))
    end.

Definition set_opt (name : string) (v : option string) (hs : Headers) : Headers :=
  match v with
  | Some x => headers_set name x hs
  | None => hs
  end.

(** [object.writeHttpMetadata(headers)] *)
Definition writeHttpMetadata (o : R2Object) (hs : Headers) : Headers :=
  let m := httpMetadata o in
  set_opt "expires" (cacheExpiry m)
    (set_opt "cache-control" (cacheControl m)
       (set_opt "content-encoding" (contentEncoding m)
          (set_opt "content-disposition" (contentDisposition m)
             (set_opt "content-language" (contentLanguage m)
                (set_opt "content-type" (contentType m) hs))))).

End R2.
Export R2.

(** ** Tokens *)

Module Token.

(** What [getTokens(request)] returns: each token is a string or
    [undefined]. *)
Record Tokens := {
  accessToken : option string;
  idToken : option string;
}.

(** The payload of a verified token, as far as the handlers read it:
    [payload.sub] and [payload.role] are a string or [undefined] (a role of
    another type compares unequal to every string, as [undefined] does).
    [exp] is the expiry of the token. *)
Record JwtPayload := {
  sub : option string;
  role : option string;
  exp : Z;
}.

End Token.
Export Token.

(** ** functions/api/share/[[user_id]].ts *)

Module Share.

(** [Env], without the bucket binding, which is the state of the handlers. *)
Record Env := {
  CLIENT_ID : string;
  CLIENT_SECRET : string;
  JWT_SECRET : string;
}.

(** [params.user_id] of a [[[user_id]]] route: the path segments as an
    array, a single string, or [undefined]. *)
Inductive Param :=
| PUndefined
| PString (s : string)
| PArray (segments : list string).

(** The context a Pages function is called with. *)
Record EventContext := {
  request : Request;
  env : Env;
  user_id : Param;
}.

(** [Array.isArray(user_id) && user_id.length === 2] *)
Definition isArrayOfLength2 (p : Param) : bool :=
  match p with
  | PArray segments => (length segments =? 2)%nat
  | _ => false
  end.

(** The segments of [user_id] once it is known to be an array. *)
Definition segments_of (p : Param) : list string :=
  match p with
  | PArray segments => segments
  | _ => []
  end.

Definition bad_path : string :=
  "Expected share URL of the form /api/share/{user}/{id}".

Definition json_content_type : string * string :=
  ("Content-Type", "application/json; charset=utf-8").

Definition oneDayMS : Z := 24 * 60 * 60 * 1000.

(** The 200 response of [onRequestPut] and [onRequestDelete] for a serializer
    of cookies that returns, and whose two cookies are header values as they
    stand. *)
Definition success (serialize : string -> string -> string)
    (message accessToken idToken : string) : Response :=
  {| body := Some (JSON_stringify_message message);
     status := 200;
     headers := [ json_content_type;
                  ("Set-Cookie", serialize "access_token" accessToken);
                  ("Set-Cookie", serialize "id_token" idToken) ] |}.

Section Handlers.

(** The helpers of [functions/token.ts], which is not among the sources,
    and the platform.  [verifyToken] is awaited inside a [try]: it gives a
    payload, [null], or throws.  [serializeToken] is called inside a [try]
    as well: it gives the text of a cookie or throws.  [getTokens] is taken
    not to throw. *)
Variable getTokens : Request -> Tokens.
Variable verifyToken : string -> string -> Outcome (option JwtPayload).
Variable serializeToken : string -> string -> Outcome string.
Variable etag_of : string -> string.
(** [new Date().getTime()] *)
Variable now : Z.

(** The [return new Response(JSON.stringify({ message }), { status: 200,
    headers: new Headers([...]) })] both [onRequestPut] and
    [onRequestDelete] end with: the two cookies are serialized, in this
    order, the headers are made of them and the response is returned.  The
    serializer and the constructor of the headers may throw. *)
Definition respond {S : Type} (message accessToken idToken : string) : Handler S :=
  do access_cookie <- await (serializeToken "access_token" accessToken);
  do id_cookie <- await (serializeToken "id_token" idToken);
  (* Update cookies to further delay expiry *)
  do headers <- await (Headers_new [ json_content_type;
                                     ("Set-Cookie", access_cookie);
                                     ("Set-Cookie", id_cookie) ]);
  return_ {| body := Some (JSON_stringify_message message);
             status := 200;
             headers := headers |}.

Definition onRequestPut (ctx : EventContext) : Handler R2Bucket :=
  let JWT_SECRET := JWT_SECRET (env ctx) in
  (* There should be tokens in the cookies *)
  let tokens := getTokens (request ctx) in
  match truthy (accessToken tokens) with
  | None => return_ (errorResponse 403 "Missing Access Token")
  | Some accessToken =>
  match truthy (idToken tokens) with
  | None => return_ (errorResponse 403 "Missing ID Token")
  | Some idToken =>
  (* We expect JSON *)
  let contentType := headers_get "Content-Type" (req_headers (request ctx)) in
  if negb (opt_includes contentType "application/json") then
    return_ (errorResponse 400 "Expected JSON")
  else
  (* We should receive [username, id] *)
  let user_id := user_id ctx in
  if negb (isArrayOfLength2 user_id) then
    return_ (errorResponse 400 bad_path)
  else
  (* Make sure the access token matches the expected user and limits. *)
  do _ <- try_catch
    (do payload <- await (verifyToken accessToken JWT_SECRET);
     match payload with
     | None => return_ (errorResponse 403 "Invalid Access Token")
     | Some payload =>
     let user := hd EmptyString (segments_of user_id) in
     if negb (strict_eq (Some user) (sub payload)) then
       return_ (errorResponse 403 "Access Token does not match username")
     else
     if negb (strict_eq (role payload) (Some "api")) then
       return_ (errorResponse 403 "Access Token missing 'api' role")
     else
     do objects <- list_ (user +:+ "/");
     (* Only 500 total shares per user *)
     if (500 <? length objects)%nat then
       return_ (errorResponse 403 "Exceeded total share limit")
     else
     (* Only 10 shares in 24 hours *)
     let recentShares :=
       List.filter (fun o => (now - uploaded o <? oneDayMS)%Z) objects in
     if (10 <? length recentShares)%nat then
       return_ (errorResponse 429 "Too many shares in a 24-hour period")
     else ret tt
     end)
    (fun err => return_ (errorResponse 400 err));
  (* Put the chat into R2 *)
  try_catch
    (let key := join "/" (segments_of user_id) in
     do _ <- put etag_of now key (req_body (request ctx));
     respond "Chat shared successfully" accessToken idToken)
    (* console.error(err) only logs *)
    (fun err => return_ (errorResponse 500 ("Unable to share chat: " +:+ err)))
  end end.

Definition onRequestGet (ctx : EventContext) : Handler R2Bucket :=
  let user_id := user_id ctx in
  (* We should receive [username, id] *)
  if negb (isArrayOfLength2 user_id) then
    return_ (errorResponse 400 bad_path)
  else
  try_catch
    (let key := join "/" (segments_of user_id) in
     do object <- get key;
     match object with
     | None => return_ (errorResponse 404 (key +:+ " not found"))
     | Some object =>
         let headers := writeHttpMetadata object [] in
         let headers := headers_set "etag" (httpEtag object) headers in
         return_ {| body := Some (obj_body object); status := 200;
                    headers := headers |}
     end)
    (* console.error(err) only logs *)
    (fun err => return_ (errorResponse 500 ("Unable to get chat: " +:+ err))).

Definition onRequestDelete (ctx : EventContext) : Handler R2Bucket :=
  let JWT_SECRET := JWT_SECRET (env ctx) in
  (* There should be tokens in the cookies *)
  let tokens := getTokens (request ctx) in
  match truthy (accessToken tokens) with
  | None => return_ (errorResponse 403 "Missing Access Token")
  | Some accessToken =>
  match truthy (idToken tokens) with
  | None => return_ (errorResponse 403 "Missing ID Token")
  | Some idToken =>
  (* We should receive [username, id] *)
  let user_id := user_id ctx in
  if negb (isArrayOfLength2 user_id) then
    return_ (errorResponse 400 bad_path)
  else
  (* Make sure we have a token, and that it matches the expected user *)
  do _ <- try_catch
    (do payload <- await (verifyToken accessToken JWT_SECRET);
     let user := hd EmptyString (segments_of user_id) in
     if negb (strict_eq (Some user) (payload ≫= sub)) then
       return_ (errorResponse 403 "Access Token does not match username")
     else
     if negb (strict_eq (payload ≫= role) (Some "api")) then
       return_ (errorResponse 403 "Access Token missing 'api' role")
     else ret tt)
    (fun err => return_ (errorResponse 400 err));
  try_catch
    (let key := join "/" (segments_of user_id) in
     do _ <- delete key;
     respond "Chat deleted successfully" accessToken idToken)
    (* console.error(err) only logs *)
    (fun err => return_ (errorResponse 500 ("Unable to share chat: " +:+ err)))
  end end.

End Handlers.

(** The request declares a JSON body: the test [onRequestPut] makes on its
    content type. *)
Definition declares_json (ctx : EventContext) : bool :=
  opt_includes (headers_get "Content-Type" (req_headers (request ctx)))
    "application/json".

(** The uploads of the last 24 hours among [os], seen at time [now]. *)
Definition recent (now : Z) (os : list R2Object) : list R2Object :=
  List.filter (fun o => (now - uploaded o <? oneDayMS)%Z) os.

End Share.

(** ** The login function *)

Module Login.

Record Env := {
  CLIENT_ID : string;
  CLIENT_SECRET : string;
  JWT_SECRET : string;
}.

(** What [requestUserInfo] resolves to: the GitHub user name and the rest of
    the profile. *)
Record User := {
  username : string;
  profile : list (string * string);
}.

(** The claims [createToken] is given: the user for the ID token,
    [{ role }] for the access token. *)
Inductive Claims :=
| UserClaims (user : User)
| RoleClaims (role : string).

(** [searchParams.get(name)]: the first value under that name. *)
Definition searchParams_get (name : string) (query : list (string * string))
  : option string :=
  snd <$> List.find (fun p => String.eqb (fst p) name) query.

(** [a || b] on values that are strings or [null]. *)
Definition or_else (a b : option string) : option string :=
  match truthy a with
  | Some x => Some x
  | None => b
  end.

Definition authorize_url : string := "https://github.com/login/oauth/authorize".
Definition origin : string := "https://chatcraft.org".
Definition login_error_url : string := "https://chatcraft.org/?github_login_error".

Section Handler.

(** The helpers of [functions/utils.ts], [functions/github.ts] and
    [functions/token.ts], which are not among the sources, and the URL
    parser of the platform.  Those awaited or called inside the [try] may
    throw.  [buildUrl] returns an absolute URL, which [Response.redirect]
    accepts, and [serializeToken] is taken to return, for a token that
    [createToken] made, a cookie that [new Headers] accepts as it is. *)
Variable buildUrl : string -> list (string * string) -> string.
Variable requestAccessToken : string -> string -> string -> Outcome string.
Variable requestUserInfo : string -> Outcome User.
Variable createToken : string -> Claims -> string -> Outcome string.
Variable serializeToken : string -> string -> string.
(** [new URL(path, base).href] *)
Variable URL_href : string -> string -> Outcome string.

Definition handleLogin (code chatId : option string)
    (CLIENT_ID CLIENT_SECRET JWT_SECRET : string) : Handler unit :=
  (* If we're missing the code, redirect to the GitHub Auth UI *)
  match truthy code with
  | None =>
      let url :=
        buildUrl authorize_url
          (* If there's a chatId, piggy-back it on the request as state *)
          match truthy chatId with
          | Some chatId => [("client_id", CLIENT_ID); ("state", chatId)]
          | None => [("client_id", CLIENT_ID)]
          end in
      return_ (Response_redirect url 302)
  | Some code =>
  (* Otherwise, exchange the code for an access_token, then get user info
     and use that to create JWTs for ChatCraft. *)
  try_catch
    (do ghAccessToken <- await (requestAccessToken code CLIENT_ID CLIENT_SECRET);
     do user <- await (requestUserInfo ghAccessToken);
     (* User info goes in a non HTTP-Only cookie that browser can read *)
     do idToken <- await (createToken (username user) (UserClaims user) JWT_SECRET);
     (* API authorization goes in an HTTP-Only cookie *)
     do accessToken <-
       await (createToken (username user) (RoleClaims "api") JWT_SECRET);
     (* Return to the root or a specific chat if we have an id *)
     do url <- await (URL_href
                        match truthy chatId with
                        | Some chatId => "/c/" +:+ chatId
                        | None => "/"
                        end origin);
     return_ {| body := None; status := 302;
                headers := [ ("Location", url);
                             ("Set-Cookie", serializeToken "access_token" accessToken);
                             ("Set-Cookie", serializeToken "id_token" idToken) ] |})
    (* console.error(err) only logs *)
    (fun err => return_ (Response_redirect login_error_url 302))
  end.

(** The route: [code] and [chat_id] or [state] come from the query of the
    request URL. *)
Definition onRequestGet (query : list (string * string)) (env : Env)
  : Handler unit :=
  let code := searchParams_get "code" query in
  let chatId :=
    or_else (searchParams_get "chat_id" query) (searchParams_get "state" query) in
  handleLogin code chatId (CLIENT_ID env) (CLIENT_SECRET env) (JWT_SECRET env).

(** A failure in the exchange of the code, in the fetch of the profile or
    in the creation of one of the two tokens. *)
Inductive login_failure (code CLIENT_ID CLIENT_SECRET JWT_SECRET : string) : Prop :=
| exchange_failed e :
    requestAccessToken code CLIENT_ID CLIENT_SECRET = Exn e ->
    login_failure code CLIENT_ID CLIENT_SECRET JWT_SECRET
| profile_failed gh e :
    requestAccessToken code CLIENT_ID CLIENT_SECRET = Val gh ->
    requestUserInfo gh = Exn e ->
    login_failure code CLIENT_ID CLIENT_SECRET JWT_SECRET
| id_token_failed gh user e :
    requestAccessToken code CLIENT_ID CLIENT_SECRET = Val gh ->
    requestUserInfo gh = Val user ->
    createToken (username user) (UserClaims user) JWT_SECRET = Exn e ->
    login_failure code CLIENT_ID CLIENT_SECRET JWT_SECRET
| access_token_failed gh user idToken e :
    requestAccessToken code CLIENT_ID CLIENT_SECRET = Val gh ->
    requestUserInfo gh = Val user ->
    createToken (username user) (UserClaims user) JWT_SECRET = Val idToken ->
    createToken (username user) (RoleClaims "api") JWT_SECRET = Exn e ->
    login_failure code CLIENT_ID CLIENT_SECRET JWT_SECRET.

End Handler.

End Login.

(** ** The token helpers, from the specification *)

Module Codec.

Fixpoint split_on (c : Ascii.ascii) (s : string) : list string :=
  match s with
  | EmptyString => [EmptyString]
  | String x rest =>
      if Ascii.eqb x c then EmptyString :: split_on c rest
      else match split_on c rest with
           | [] => [String x EmptyString]
           | piece :: pieces => String x piece :: pieces
           end
  end.

Fixpoint ltrim (s : string) : string :=
  match s with
  | String " "%char rest => ltrim rest
  | _ => s
  end.

Fixpoint cut (c : Ascii.ascii) (s : string) : option (string * string) :=
  match s with
  | EmptyString => None
  | String x rest =>
      if Ascii.eqb x c then Some (EmptyString, rest)
      else match cut c rest with
           | Some (name, value) => Some (String x name, value)
           | None => None
           end
  end.

Definition parse (header : string) : list (string * string) :=
  omap (fun piece => cut "="%char (ltrim piece)) (split_on ";"%char header).

Definition cookie (name : string) (jar : list (string * string)) : option string :=
  snd <$> List.find (fun p => String.eqb (fst p) name) jar.

(** Modelled from the spec: [getTokens] of [functions/token.ts], which is
    not among the sources.  Section 4.2, extract: parses the cookie header;
    absence of either token is not an error at this layer.  The cookies are
    [access_token] and [id_token] (section 6). *)
Definition getTokens (req : Request) : Tokens :=
  let jar := from_option parse [] (headers_get "Cookie" (req_headers req)) in
  {| accessToken := cookie "access_token" jar; idToken := cookie "id_token" jar |}.

(** Modelled from the spec: [serializeToken] of [functions/token.ts], which
    is not among the sources.  Section 4.2, serialize: the access-token
    cookie is marked HTTP-only, secure, same-site-lax and scoped to the API
    path; the identity-token cookie omits HTTP-only; both carry the expiry
    of the token (seven days, the horizon section 4.1 names). *)
Definition serializeToken (name token : string) : string :=
  name +:+ "=" +:+ token +:+ "; Max-Age=604800" +:+
  (if String.eqb name "access_token"
   then "; Path=/api; HttpOnly; Secure; SameSite=Lax"
   else "; Path=/; Secure; SameSite=Lax").

(** A token that was issued: its text, the secret it was signed with and the
    payload it carries. *)
Record Issued := {
  token : string;
  signed_with : string;
  claims : JwtPayload;
}.

Inductive Failure := InvalidSignature | Expired | Malformed.

(** Modelled from the spec: the verification of the Token Codec
    ([functions/token.ts] is not among the sources).  Section 4.1, verify:
    fails with [Malformed] if the structure cannot be decoded, with
    [InvalidSignature] if the MAC does not match, with [Expired] if the
    current time exceeds the expiry; succeeds returning the payload.  The
    MAC is ideal: the tokens that decode are those that were issued, and the
    signature of one matches under the secret it was signed with only. *)
Definition verify (issued : list Issued) (now : Z) (tok secret : string)
  : Failure + JwtPayload :=
  match List.find (fun i => String.eqb (token i) tok) issued with
  | None => inl Malformed
  | Some i =>
      if negb (String.eqb (signed_with i) secret) then inl InvalidSignature
      else if (exp (claims i) <? now)%Z then inl Expired
      else inr (claims i)
  end.

(** Modelled from the spec: [verifyToken] as the handlers await it.  A
    failed verification gives no payload: it is the case [onRequestPut]
    answers with "Invalid Access Token" (section 4.5). *)
Definition verifyToken (issued : list Issued) (now : Z) (tok secret : string)
  : Outcome (option JwtPayload) :=
  match verify issued now tok secret with
  | inl _ => Val None
  | inr payload => Val (Some payload)
  end.

(** The handlers await [verifyToken] inside a [try], so that a verifier may
    also throw.  This one throws on the tokens it cannot decode, as JWT
    libraries do, and gives no payload for the others it rejects. *)
Definition verifyToken_throwing (issued : list Issued) (now : Z) (tok secret : string)
  : Outcome (option JwtPayload) :=
  match verify issued now tok secret with
  | inl Malformed => Exn "token must consist of 3 parts"
  | inl _ => Val None
  | inr payload => Val (Some payload)
  end.

End Codec.

(** ** Requests, tokens and buckets used in the examples *)

Module Examples.
Import Share.

Definition secret : string := "s3cret".

Definition the_env : Env :=
  {| CLIENT_ID := "client-id"; CLIENT_SECRET := "client-secret"; JWT_SECRET := secret |}.

(** The time of the requests, and two upload times: within the last day and
    two days before. *)
Definition clock : Z := 1700000000000.
Definition recently : Z := clock - 60 * 60 * 1000.
Definition long_ago : Z := clock - 2 * oneDayMS.

Definition api_payload (user : string) (expiry : Z) : JwtPayload :=
  {| sub := Some user; role := Some "api"; exp := expiry |}.

Definition issued : list Codec.Issued :=
  [ {| Codec.token := "alice.access"; Codec.signed_with := secret;
       Codec.claims := api_payload "alice" (clock + 1000) |};
    {| Codec.token := "alice.expired"; Codec.signed_with := secret;
       Codec.claims := api_payload "alice" (clock - 1000) |};
    {| Codec.token := "alice.profile"; Codec.signed_with := secret;
       Codec.claims := {| sub := Some "alice"; role := None; exp := clock + 1000 |} |};
    {| Codec.token := "bob.access"; Codec.signed_with := secret;
       Codec.claims := api_payload "bob" (clock + 1000) |} ].

Definition etag_of (bytes : string) : string := "etag-" +:+ pretty (String.length bytes).

Definition cookies (access id : string) : string * string :=
  ("Cookie", "access_token=" +:+ access +:+ "; id_token=" +:+ id).

Definition json_request (access id : string) : Request :=
  {| req_headers := [cookies access id; ("Content-Type", "application/json")];
     req_body := Some "{}" |}.

Definition text_request (access id : string) : Request :=
  {| req_headers := [cookies access id; ("Content-Type", "text/plain")];
     req_body := Some "hello" |}.

Definition anonymous_request : Request :=
  {| req_headers := [("Content-Type", "application/json")]; req_body := Some "{}" |}.

Definition context (req : Request) (path : list string) : EventContext :=
  {| request := req; env := the_env; user_id := PArray path |}.

Definition share (owner : string) (at_time : Z) (n : nat) : string * R2Object :=
  let key := owner +:+ "/chat" +:+ pretty n in
  (key, {| obj_key := key; obj_body := "{}"; httpMetadata := no_metadata;
           httpEtag := etag_of "{}"; uploaded := at_time |}).

Definition no_fault : R2Op -> option string := fun _ => None.

(** A bucket in which [owner] has [old] shares of two days ago and [recent]
    shares of the last hour. *)
Definition bucket_with (owner : string) (old recent : nat) : R2Bucket :=
  {| objects := list_to_map (List.map (share owner long_ago) (seq 0 old) ++
                             List.map (share owner recently) (seq old recent));
     fault := no_fault |}.

Definition failing (op : R2Op) (message : string) (b : R2Bucket) : R2Bucket :=
  {| objects := objects b;
     fault := fun o => if bool_decide (o = op) then Some message else fault b o |}.

(** The serializer of the cookies, which returns. *)
Definition serializeToken (name token : string) : Outcome string :=
  Val (Codec.serializeToken name token).

(** A serializer that rejects every token, as a serializer of cookies rejects
    a value with a character that no cookie may hold. *)
Definition rejectingSerializer (name token : string) : Outcome string :=
  Exn "argument val is invalid".

Definition PUT := onRequestPut Codec.getTokens (Codec.verifyToken issued clock)
                    serializeToken etag_of clock.
Definition GET := onRequestGet.
Definition DELETE := onRequestDelete Codec.getTokens (Codec.verifyToken issued clock)
                       serializeToken.

End Examples.

(** ** Examples for the login function *)

Module LoginExamples.
Import Login.

Definition buildUrl (base : string) (params : list (string * string)) : string :=
  base +:+ "?" +:+ join "&" (List.map (fun p => fst p +:+ "=" +:+ snd p) params).

(** GitHub accepts one code, and that code once exchanged gives a token the
    profile of [alice] is fetched with. *)
Definition requestAccessToken (code client_id client_secret : string) : Outcome string :=
  if String.eqb code "good-code" then Val "gho_alice"
  else if String.eqb code "orphan-code" then Val "gho_nobody"
  else Exn "bad_verification_code".

Definition requestUserInfo (ghAccessToken : string) : Outcome User :=
  if String.eqb ghAccessToken "gho_alice"
  then Val {| username := "alice"; profile := [("name", "Alice")] |}
  else Exn "Bad credentials".

Definition createToken (subject : string) (claims : Claims) (secret : string)
  : Outcome string :=
  match claims with
  | UserClaims _ => Val (subject +:+ ".profile")
  | RoleClaims r => Val (subject +:+ "." +:+ r)
  end.

(** A stand-in for [new URL(path, base).href] that puts the path after the
    base.  It agrees with the parser on the paths of the examples, which are
    made of letters, digits and [/]; the parser also resolves dot segments
    and encodes bytes, which this stand-in does not. *)
Definition URL_href (path base : string) : Outcome string := Val (base +:+ path).

Definition login (code chatId : option string) : Handler unit :=
  handleLogin buildUrl requestAccessToken requestUserInfo createToken
    Codec.serializeToken URL_href code chatId "client-id" "client-secret" "s3cret".

End LoginExamples.

(** * The client *)

(** ** Promises with effects *)

(** The handlers of the client start a promise and chain callbacks on it.  A
    promise is modelled when it has settled: the effects its callbacks had, in
    order, and the value it was fulfilled with or the reason it was rejected
    with. *)
Module Promises.

(** A thrown value, as the code inspects it: an object, with its [message] if
    it has one, or a primitive; ["message" in err] throws on a primitive. *)
Inductive Thrown :=
| ThrownObject (message : option string)
| ThrownPrimitive.

Inductive Settled (A : Type) : Type :=
| Fulfilled (a : A)
| Rejected (reason : Thrown).
Global Arguments Fulfilled {A} a.
Global Arguments Rejected {A} reason.

Section Promise.
Context {E : Type}.

Definition Promise (A : Type) : Type := list E * Settled A.

Definition resolve {A} (a : A) : Promise A := ([], Fulfilled a).

Definition throw_ {A} (reason : Thrown) : Promise A := ([], Rejected reason).

(** A call that has an effect and returns nothing. *)
Definition perform (e : E) : Promise unit := ([e], Fulfilled tt).

(** A promise of the outside: it settles without an effect of this code. *)
Definition settled {A} (s : Settled A) : Promise A := ([], s).

(** [p.then(f)]; also the sequence [p; f()] inside a callback. *)
Definition then_ {A B} (p : Promise A) (f : A -> Promise B) : Promise B :=
  match p with
  | (es, Fulfilled a) => let '(es', r) := f a in (app es es', r)
  | (es, Rejected reason) => (es, Rejected reason)
  end.

(** [p.catch(h)]: a handler that returns fulfils the promise, one that throws
    rejects it. *)
Definition catch_ {A} (p : Promise A) (h : Thrown -> Promise A) : Promise A :=
  match p with
  | (es, Rejected reason) => let '(es', r) := h reason in (app es es', r)
  | fulfilled => fulfilled
  end.

(** [p.finally(f)]: [f] runs however [p] settled. *)
Definition finally_ {A} (p : Promise A) (f : Promise unit) : Promise A :=
  let '(es, r) := p in
  let '(es', r') := f in
  (app es es', match r' with
              | Rejected reason => Rejected reason
              | Fulfilled _ => r
              end).

Definition effects {A} (p : Promise A) : list E := fst p.

End Promise.
Global Arguments Promise : clear implicits.

End Promises.

Notation "'run' x <- p ; k" := (Promises.then_ p (fun x => k))
  (at level 10, x name, p at level 100, k at level 200).

(** ** src/hooks/use-settings.tsx *)

Module Settings.
Import Promises.

(** A JSON value, as [response.json()] gives it; a number is kept as its
    text. *)
Local Unset Elimination Schemes.
Inductive Json :=
| JNull
| JBool (b : bool)
| JNumber (text : string)
| JString (s : string)
| JArray (items : list Json)
| JObject (members : list (string * Json)).
Local Set Elimination Schemes.

(** The value of a property of a JavaScript object: [undefined], a JSON
    value, or an instance of a class of the application. *)
Inductive Value :=
| VUndefined
| VJson (j : Json)
| VInstance (class : string).

(** The member of an object [JSON.parse] keeps under a name: the last one. *)
Definition member (name : string) (members : list (string * Json)) : option Json :=
  snd <$> List.find (fun m => String.eqb (fst m) name) (rev members).

(** [data.key]: reading a property of [null] throws a [TypeError]; a value
    that is not an object has no such property. *)
Definition data_key (data : Json) : Settled Value :=
  match data with
  | JNull => Rejected (ThrownObject (Some "Cannot read properties of null (reading 'key')"))
  | JObject members =>
      Fulfilled match member "key" members with
                | Some j => VJson j
                | None => VUndefined
                end
  | _ => Fulfilled VUndefined
  end.

(** [window.location], as far as it is read. *)
Record Location := {
  origin : string;
  pathname : string;
  hash : string;
}.

(** [searchParams.delete(name)] *)
Definition searchParams_delete (name : string) (params : list (string * string))
  : list (string * string) :=
  List.filter (fun p => negb (String.eqb (fst p) name)) params.

(** What [fetch] resolves to: a response of which [json()] is read. *)
Record FetchResponse := {
  json : Settled Json;
}.

Inductive Effect :=
(** [fetch(url, { method, body: JSON.stringify(body) })] *)
| Fetch (url method : string) (body : Json)
(** the setter of [useLocalStorage] *)
| SetSettings (settings : gmap string Value)
(** the setter of [useState] *)
| SetState (settings : gmap string Value)
(** [window.history.replaceState({}, document.title, url)] *)
| ReplaceState (url : string)
| ConsoleError (message : string) (error : option Thrown).

Section Provider.

(** The serializer of [application/x-www-form-urlencoded], applied by
    [searchParams.toString()] to each name and value. *)
Variable encode : string -> string.

(** [searchParams.toString()] *)
Definition searchParams_toString (params : list (string * string)) : string :=
  join "&" (List.map (fun p => encode (fst p) +:+ "=" +:+ encode (snd p)) params).

(** The settings are an object of type [Settings] ([lib/settings] is not among
    the sources): this code spreads it and sets its [apiKey].  [state] is the
    React state of the render, [searchParams] the parameters parsed from
    [window.location.search], [reply] what the request settles to. *)
Variable state : gmap string Value.
Variable location : Location.
Variable searchParams : list (string * string).
Variable reply : Settled FetchResponse.

Definition handleOpenRouterCodeExchange (code : string) : Promise Effect unit :=
  let requestBody := JObject [("code", JString code)] in
  catch_
    (run response <-
       (run _ <- perform (Fetch "https://openrouter.ai/api/v1/auth/keys" "POST" requestBody);
        settled reply);
     run data <- settled (json response);
     run apiKey <- settled (data_key data);
     match apiKey with
     | VUndefined =>
         perform (ConsoleError "OpenRouter OAuth PKCE response missing API key" None)
     | _ =>
         run _ <- perform (SetSettings (<["apiKey" := apiKey]> state));
         (* Strip out openRouter's code from the URL *)
         let searchParams := searchParams_delete "code" searchParams in
         let urlWithoutCode :=
           origin location +:+ pathname location +:+ hash location +:+
           searchParams_toString searchParams in
         perform (ReplaceState urlWithoutCode)
     end)
    (fun error => perform (ConsoleError "Error authenticating with OpenRouter" (Some error))).

(** The effect on [openRouterCode], the [code] parameter of the URL. *)
Definition onOpenRouterCode : list Effect :=
  match truthy (Login.searchParams_get "code" searchParams) with
  | Some openRouterCode => effects (handleOpenRouterCodeExchange openRouterCode)
  | None => []
  end.

(** [updateSettings(newSettings)]: [{ ...state, ...newSettings }] has the
    properties of [newSettings] and, for the other names, those of [state]. *)
Definition updateSettings (newSettings : gmap string Value) : list Effect :=
  let updated := newSettings ∪ state in
  [SetState updated; SetSettings updated].

End Provider.

End Settings.

(** ** src/Chat/ChatHeader.tsx *)

Module ChatHeader.
Import Promises.

(** What [FormData.get] returns. *)
Inductive FormDataEntry :=
| EntryNull
| EntryFile (name : string)
| EntryString (s : string).

Inductive Effect :=
| PreventDefault
(** [chat.save()], with the summary the chat has at the call *)
| Save (summary : option string)
| ConsoleWarn (message : string)
| Toast (title : string) (description : option string)
| SetIsEditing (editing : bool).

(** ["message" in err ? err.message : undefined] *)
Definition message_of (err : Thrown) : Settled (option string) :=
  match err with
  | ThrownObject message => Fulfilled message
  | ThrownPrimitive =>
      Rejected (ThrownObject (Some "Cannot use 'in' operator to search for 'message'"))
  end.

(** [handleSaveSummary(e)] on a chat whose summary is [summary] and whose
    [save()] settles as [saved]: the summary of the chat afterwards, and the
    effects. *)
Definition handleSaveSummary (entry : FormDataEntry) (summary : option string)
    (saved : Settled unit) : option string * list Effect :=
  match entry with
  | EntryString s =>
      let chat_summary := Some s in
      (chat_summary,
       PreventDefault ::
       effects
         (finally_
            (catch_
               (run _ <- perform (Save chat_summary); settled saved)
               (fun err =>
                  run _ <- perform (ConsoleWarn "Unable to update summary for chat");
                  run description <- settled (message_of err);
                  perform (Toast "Error Updating Chat" description)))
            (perform (SetIsEditing false))))
  | _ => (summary, [PreventDefault])
  end.

End ChatHeader.

(** ** PreferencesModal

    The component that follows the handlers in the source file of the sharing
    gateway. *)

Module Preferences.
Import Promises.

Inductive Effect :=
(** [validateOpenAiApiKey(apiKey)] *)
| Validate (apiKey : string)
| ConsoleWarn (message : string)
| SetIsApiKeyInvalid (invalid : bool).

Section Validation.

(** What [validateOpenAiApiKey] ([lib/ai] is not among the sources) settles
    to for a key. *)
Variable validateOpenAiApiKey : string -> Settled bool.

(** The debounced check of [settings.apiKey]. *)
Definition checkApiKey (apiKey : option string) : list Effect :=
  match truthy apiKey with
  | None => effects (perform (SetIsApiKeyInvalid true))
  | Some apiKey =>
      effects
        (catch_
           (run result <-
              (run _ <- perform (Validate apiKey); settled (validateOpenAiApiKey apiKey));
            perform (SetIsApiKeyInvalid (negb result)))
           (fun err =>
              run _ <- perform (ConsoleWarn "Error validating API key");
              perform (SetIsApiKeyInvalid true)))
  end.

End Validation.

End Preferences.

(** * Properties *)

(** ** Headers *)

Section HeaderFacts.

Lemma same_name_true (a b : string) : same_name a b = true <-> lower a = lower b.
Proof. unfold same_name. apply String.eqb_eq. Qed.

Lemma same_name_false (a b : string) : same_name a b = false <-> lower a <> lower b.
Proof. unfold same_name. apply String.eqb_neq. Qed.

(** A header under the name [m] is not one under [n] when the two names
    differ. *)
Lemma same_name_other (x m n : string) :
  same_name x m = true -> same_name m n = false -> same_name x n = false.
Proof.
  rewrite same_name_true, !same_name_false. intros Hxm Hmn Hxn.
  apply Hmn. congruence.
Qed.

Lemma same_name_both (x m n : string) :
  same_name x m = false -> same_name m n = true -> same_name x n = false.
Proof.
  rewrite same_name_true, !same_name_false. intros Hxm Hmn Hxn.
  apply Hxm. congruence.
Qed.

Lemma values_of_cons (n : string) (h : string * string) (hs : Headers) :
  values_of n (h :: hs) =
  if same_name (fst h) n then snd h :: values_of n hs else values_of n hs.
Proof. unfold values_of. simpl. destruct (same_name (fst h) n); reflexivity. Qed.

Lemma values_of_delete_ne (n m : string) (hs : Headers) :
  same_name m n = false ->
  values_of n (headers_delete m hs) = values_of n hs.
Proof.
  intros Hmn. induction hs as [|[x v] hs IH]; [reflexivity|].
  unfold headers_delete in *. simpl.
  destruct (same_name x m) eqn:Hxm; simpl.
  - rewrite values_of_cons. simpl.
    rewrite (same_name_other x m n Hxm Hmn). exact IH.
  - rewrite !values_of_cons. simpl. rewrite IH. reflexivity.
Qed.

Lemma values_of_delete_eq (n m : string) (hs : Headers) :
  same_name m n = true ->
  values_of n (headers_delete m hs) = [].
Proof.
  intros Hmn. induction hs as [|[x v] hs IH]; [reflexivity|].
  unfold headers_delete in *. simpl.
  destruct (same_name x m) eqn:Hxm; simpl; [exact IH|].
  rewrite values_of_cons. simpl.
  rewrite (same_name_both x m n Hxm Hmn). exact IH.
Qed.

(** [set] leaves the headers of other names as they are. *)
Lemma values_of_set_ne (n m v : string) (hs : Headers) :
  same_name m n = false ->
  values_of n (headers_set m v hs) = values_of n hs.
Proof.
  intros Hmn. induction hs as [|[x w] hs IH]; simpl.
  - rewrite values_of_cons. simpl. rewrite Hmn. reflexivity.
  - destruct (same_name x m) eqn:Hxm.
    + rewrite !values_of_cons. simpl.
      rewrite (same_name_other x m n Hxm Hmn).
      apply values_of_delete_ne, Hmn.
    + rewrite !values_of_cons. simpl. rewrite IH. reflexivity.
Qed.

(** After [set], the name has the one value it was given. *)
Lemma values_of_set_eq (n v : string) (hs : Headers) :
  values_of n (headers_set n v hs) = [v].
Proof.
  assert (Hnn : same_name n n = true) by (apply same_name_true; reflexivity).
  induction hs as [|[x w] hs IH]; simpl.
  - rewrite values_of_cons. simpl. rewrite Hnn. reflexivity.
  - destruct (same_name x n) eqn:Hxn.
    + rewrite values_of_cons. simpl. rewrite Hxn.
      rewrite (values_of_delete_eq n n hs Hnn). reflexivity.
    + rewrite values_of_cons. simpl. rewrite Hxn. exact IH.
Qed.

Lemma headers_get_set_eq (n v : string) (hs : Headers) :
  headers_get n (headers_set n v hs) = Some v.
Proof. unfold headers_get. rewrite values_of_set_eq. reflexivity. Qed.

Lemma headers_get_set_ne (n m v : string) (hs : Headers) :
  same_name m n = false ->
  headers_get n (headers_set m v hs) = headers_get n hs.
Proof. intros H. unfold headers_get. rewrite values_of_set_ne by exact H. reflexivity. Qed.

Lemma values_of_set_opt_ne (n m : string) (v : option string) (hs : Headers) :
  same_name m n = false ->
  values_of n (set_opt m v hs) = values_of n hs.
Proof. intros H. destruct v; simpl; [apply values_of_set_ne, H | reflexivity]. Qed.

(** [writeHttpMetadata] writes none of the headers it does not know. *)
Lemma values_of_writeHttpMetadata (n : string) (o : R2Object) (hs : Headers) :
  same_name "content-type" n = false ->
  same_name "content-language" n = false ->
  same_name "content-disposition" n = false ->
  same_name "content-encoding" n = false ->
  same_name "cache-control" n = false ->
  same_name "expires" n = false ->
  values_of n (writeHttpMetadata o hs) = values_of n hs.
Proof.
  intros. unfold writeHttpMetadata.
  rewrite !values_of_set_opt_ne by assumption. reflexivity.
Qed.

(** The content type it writes is the stored one. *)
Lemma content_type_of_writeHttpMetadata (o : R2Object) :
  headers_get "content-type" (writeHttpMetadata o []) = contentType (httpMetadata o).
Proof.
  unfold writeHttpMetadata, headers_get.
  rewrite !values_of_set_opt_ne by reflexivity.
  destruct (contentType (httpMetadata o)); reflexivity.
Qed.

End HeaderFacts.

(** ** The sharing gateway *)

Import Share.

(** Unfolds a handler down to the case analysis it makes. *)
Ltac handler_unfold :=
  unfold declares_json, recent, stored, onRequestPut, onRequestDelete, onRequestGet,
    Login.handleLogin in *;
  unfold respond in *;
  unfold bind, try_catch, await, return_, ret, list_, put, R2.delete, get in *.

(** Follows the handler through every test it makes. *)
Ltac handler_cases :=
  repeat match goal with
    | H : (_, _) = (_, _) |- _ => inversion H; subst; clear H
    | H : context [match ?x with _ => _ end] |- _ => destruct x eqn:?; simpl in H
    | H : context [if ?x then _ else _] |- _ => destruct x eqn:?; simpl in H
    | |- context [match ?x with _ => _ end] => destruct x eqn:?; simpl
    | |- context [if ?x then _ else _] => destruct x eqn:?; simpl
    end; try discriminate; try congruence.

Section ShareFacts.

Variable getTokens : Request -> Tokens.
Variable verifyToken : string -> string -> Outcome (option JwtPayload).
Variable serializeToken : string -> string -> Outcome string.
Variable etag_of : string -> string.
Variable now : Z.

Local Abbreviation PUT := (onRequestPut getTokens verifyToken serializeToken etag_of now).
Local Abbreviation GET := onRequestGet.
Local Abbreviation DELETE := (onRequestDelete getTokens verifyToken serializeToken).

(** The response [respond] returns when the cookies are serialized to
    [access_cookie] and [id_cookie] and the headers made of them are
    [headers]. *)
Local Abbreviation built message headers :=
  {| body := Some (JSON_stringify_message message); status := 200; headers := headers |}.
Local Abbreviation cookie_headers access_cookie id_cookie :=
  (Headers_new [json_content_type; ("Set-Cookie", access_cookie); ("Set-Cookie", id_cookie)]).

Local Abbreviation access_cookie ctx := (truthy (accessToken (getTokens (request ctx)))).
Local Abbreviation id_cookie ctx := (truthy (idToken (getTokens (request ctx)))).
Local Abbreviation owner_of ctx := (hd EmptyString (segments_of (user_id ctx))).
Local Abbreviation key_of ctx := (join "/" (segments_of (user_id ctx))).

(** A truthy value is the value itself. *)
Lemma truthy_Some (x : option string) (s : string) : truthy x = Some s -> x = Some s.
Proof. destruct x as [[|c rest]|]; simpl; congruence. Qed.

Lemma strict_eq_true (a b : option string) : strict_eq a b = true <-> a = b.
Proof. unfold strict_eq. apply bool_decide_eq_true. Qed.

Lemma strict_eq_false (a b : option string) : strict_eq a b = false <-> a <> b.
Proof. unfold strict_eq. apply bool_decide_eq_false. Qed.

(** Every handler of the gateway ends by returning a response: each of its
    throwing calls is inside a [try]. *)
Lemma put_returns ctx b : exists r b', PUT ctx b = (Return r, b').
Proof. handler_unfold. handler_cases; eauto. Qed.

Lemma delete_returns ctx b : exists r b', DELETE ctx b = (Return r, b').
Proof. handler_unfold. handler_cases; eauto. Qed.

Lemma get_returns ctx b : exists r, GET ctx b = (Return r, b).
Proof. handler_unfold. handler_cases; eauto. Qed.

(** *** The paths of [onRequestPut] *)

Lemma put_missing_access_token ctx b :
  access_cookie ctx = None ->
  PUT ctx b = (Return (errorResponse 403 "Missing Access Token"), b).
Proof. intros H. handler_unfold. rewrite H. reflexivity. Qed.

Lemma put_missing_id_token ctx b a :
  access_cookie ctx = Some a -> id_cookie ctx = None ->
  PUT ctx b = (Return (errorResponse 403 "Missing ID Token"), b).
Proof. intros Ha Hi. handler_unfold. rewrite Ha, Hi. reflexivity. Qed.

Lemma put_expected_json ctx b a i :
  access_cookie ctx = Some a -> id_cookie ctx = Some i ->
  declares_json ctx = false ->
  PUT ctx b = (Return (errorResponse 400 "Expected JSON"), b).
Proof. intros Ha Hi Hj. handler_unfold. rewrite Ha, Hi, Hj. reflexivity. Qed.

Lemma put_bad_path ctx b a i :
  access_cookie ctx = Some a -> id_cookie ctx = Some i ->
  declares_json ctx = true ->
  isArrayOfLength2 (user_id ctx) = false ->
  PUT ctx b = (Return (errorResponse 400 bad_path), b).
Proof. intros Ha Hi Hj Hp. handler_unfold. rewrite Ha, Hi, Hj, Hp. reflexivity. Qed.

Lemma put_verification_throws ctx b a i e :
  access_cookie ctx = Some a -> id_cookie ctx = Some i ->
  declares_json ctx = true ->
  isArrayOfLength2 (user_id ctx) = true ->
  verifyToken a (JWT_SECRET (env ctx)) = Exn e ->
  PUT ctx b = (Return (errorResponse 400 e), b).
Proof.
  intros Ha Hi Hj Hp Hv. handler_unfold. rewrite Ha, Hi, Hj, Hp, Hv. reflexivity.
Qed.

Lemma put_no_payload ctx b a i :
  access_cookie ctx = Some a -> id_cookie ctx = Some i ->
  declares_json ctx = true ->
  isArrayOfLength2 (user_id ctx) = true ->
  verifyToken a (JWT_SECRET (env ctx)) = Val None ->
  PUT ctx b = (Return (errorResponse 403 "Invalid Access Token"), b).
Proof.
  intros Ha Hi Hj Hp Hv. handler_unfold. rewrite Ha, Hi, Hj, Hp, Hv. reflexivity.
Qed.

Lemma put_not_the_owner ctx b a i p :
  access_cookie ctx = Some a -> id_cookie ctx = Some i ->
  declares_json ctx = true ->
  isArrayOfLength2 (user_id ctx) = true ->
  verifyToken a (JWT_SECRET (env ctx)) = Val (Some p) ->
  sub p <> Some (owner_of ctx) ->
  PUT ctx b = (Return (errorResponse 403 "Access Token does not match username"), b).
Proof.
  intros Ha Hi Hj Hp Hv Hs. handler_unfold. rewrite Ha, Hi, Hj, Hp, Hv. simpl.
  assert (strict_eq (Some (owner_of ctx)) (sub p) = false) as ->
    by (apply strict_eq_false; congruence).
  reflexivity.
Qed.

Lemma put_without_api_role ctx b a i p :
  access_cookie ctx = Some a -> id_cookie ctx = Some i ->
  declares_json ctx = true ->
  isArrayOfLength2 (user_id ctx) = true ->
  verifyToken a (JWT_SECRET (env ctx)) = Val (Some p) ->
  sub p = Some (owner_of ctx) ->
  role p <> Some "api" ->
  PUT ctx b = (Return (errorResponse 403 "Access Token missing 'api' role"), b).
Proof.
  intros Ha Hi Hj Hp Hv Hs Hr. handler_unfold. rewrite Ha, Hi, Hj, Hp, Hv. simpl.
  assert (strict_eq (Some (owner_of ctx)) (sub p) = true) as ->
    by (apply strict_eq_true; congruence).
  assert (strict_eq (role p) (Some "api") = false) as ->
    by (apply strict_eq_false; congruence).
  reflexivity.
Qed.


Lemma put_over_total_limit ctx b a i p :
  access_cookie ctx = Some a -> id_cookie ctx = Some i ->
  declares_json ctx = true ->
  isArrayOfLength2 (user_id ctx) = true ->
  verifyToken a (JWT_SECRET (env ctx)) = Val (Some p) ->
  sub p = Some (owner_of ctx) ->
  role p = Some "api" ->
  fault b OpList = None ->
  (500 < length (listing b (owner_of ctx +:+ "/")))%nat ->
  PUT ctx b = (Return (errorResponse 403 "Exceeded total share limit"), b).
Proof.
  intros Ha Hi Hj Hp Hv Hs Hr Hl Hn. handler_unfold.
  rewrite Ha, Hi, Hj, Hp, Hv. simpl.
  assert (strict_eq (Some (owner_of ctx)) (sub p) = true) as ->
    by (apply strict_eq_true; congruence).
  assert (strict_eq (role p) (Some "api") = true) as ->
    by (apply strict_eq_true; congruence).
  simpl. rewrite Hl.
  apply Nat.ltb_lt in Hn. rewrite Hn. reflexivity.
Qed.

Lemma put_over_daily_limit ctx b a i p :
  access_cookie ctx = Some a -> id_cookie ctx = Some i ->
  declares_json ctx = true ->
  isArrayOfLength2 (user_id ctx) = true ->
  verifyToken a (JWT_SECRET (env ctx)) = Val (Some p) ->
  sub p = Some (owner_of ctx) ->
  role p = Some "api" ->
  fault b OpList = None ->
  (length (listing b (owner_of ctx +:+ "/")) <= 500)%nat ->
  (10 < length (recent now (listing b (owner_of ctx +:+ "/"))))%nat ->
  PUT ctx b = (Return (errorResponse 429 "Too many shares in a 24-hour period"), b).
Proof.
  intros Ha Hi Hj Hp Hv Hs Hr Hl Hn Hd. handler_unfold.
  rewrite Ha, Hi, Hj, Hp, Hv. simpl.
  assert (strict_eq (Some (owner_of ctx)) (sub p) = true) as ->
    by (apply strict_eq_true; congruence).
  assert (strict_eq (role p) (Some "api") = true) as ->
    by (apply strict_eq_true; congruence).
  simpl. rewrite Hl.
  apply Nat.ltb_ge in Hn. rewrite Hn.
  apply Nat.ltb_lt in Hd. rewrite Hd. reflexivity.
Qed.

(** The write goes through when the listing holds at most 500 objects, of
    which at most 10 are of the last day. *)
Lemma put_within_limits ctx b a i p :
  access_cookie ctx = Some a -> id_cookie ctx = Some i ->
  declares_json ctx = true ->
  isArrayOfLength2 (user_id ctx) = true ->
  verifyToken a (JWT_SECRET (env ctx)) = Val (Some p) ->
  sub p = Some (owner_of ctx) ->
  role p = Some "api" ->
  fault b OpList = None ->
  (length (listing b (owner_of ctx +:+ "/")) <= 500)%nat ->
  (length (recent now (listing b (owner_of ctx +:+ "/"))) <= 10)%nat ->
  fault b OpPut = None ->
  PUT ctx b =
    try_catch (respond serializeToken "Chat shared successfully" a i)
      (fun err => return_ (errorResponse 500 ("Unable to share chat: " +:+ err)))
      (with_objects b
         (<[key_of ctx := stored etag_of now (key_of ctx) (req_body (request ctx))]>
            (objects b))).
Proof.
  intros Ha Hi Hj Hp Hv Hs Hr Hl Hn Hd Hf.
  unfold declares_json, recent, stored, onRequestPut, bind, try_catch, await, return_,
    ret, list_, put in *.
  rewrite Ha, Hi, Hj, Hp, Hv. simpl.
  assert (strict_eq (Some (owner_of ctx)) (sub p) = true) as ->
    by (apply strict_eq_true; congruence).
  assert (strict_eq (role p) (Some "api") = true) as ->
    by (apply strict_eq_true; congruence).
  simpl. rewrite Hl.
  apply Nat.ltb_ge in Hn. rewrite Hn.
  apply Nat.ltb_ge in Hd. rewrite Hd. simpl. rewrite Hf. reflexivity.
Qed.

Lemma put_store_fails ctx b a i p e :
  access_cookie ctx = Some a -> id_cookie ctx = Some i ->
  declares_json ctx = true ->
  isArrayOfLength2 (user_id ctx) = true ->
  verifyToken a (JWT_SECRET (env ctx)) = Val (Some p) ->
  sub p = Some (owner_of ctx) ->
  role p = Some "api" ->
  fault b OpList = None ->
  (length (listing b (owner_of ctx +:+ "/")) <= 500)%nat ->
  (length (recent now (listing b (owner_of ctx +:+ "/"))) <= 10)%nat ->
  fault b OpPut = Some e ->
  PUT ctx b = (Return (errorResponse 500 ("Unable to share chat: " +:+ e)), b).
Proof.
  intros Ha Hi Hj Hp Hv Hs Hr Hl Hn Hd Hf. handler_unfold.
  rewrite Ha, Hi, Hj, Hp, Hv. simpl.
  assert (strict_eq (Some (owner_of ctx)) (sub p) = true) as ->
    by (apply strict_eq_true; congruence).
  assert (strict_eq (role p) (Some "api") = true) as ->
    by (apply strict_eq_true; congruence).
  simpl. rewrite Hl.
  apply Nat.ltb_ge in Hn. rewrite Hn.
  apply Nat.ltb_ge in Hd. rewrite Hd. simpl. rewrite Hf. reflexivity.
Qed.

(** A [PUT] that answers 200, or that changes the bucket, went through every
    check. *)
Lemma put_success_inv ctx b r b' :
  PUT ctx b = (Return r, b') ->
  status r = 200 \/ b' <> b ->
  exists a i p,
    access_cookie ctx = Some a /\ id_cookie ctx = Some i /\
    declares_json ctx = true /\
    isArrayOfLength2 (user_id ctx) = true /\
    verifyToken a (JWT_SECRET (env ctx)) = Val (Some p) /\
    sub p = Some (owner_of ctx) /\ role p = Some "api" /\
    (length (listing b (owner_of ctx +:+ "/")) <= 500)%nat /\
    (length (recent now (listing b (owner_of ctx +:+ "/"))) <= 10)%nat /\
    (status r = 200 ->
     exists access_cookie id_cookie headers,
       serializeToken "access_token" a = Val access_cookie /\
       serializeToken "id_token" i = Val id_cookie /\
       cookie_headers access_cookie id_cookie = Val headers /\
       r = built "Chat shared successfully" headers).
Proof.
  intros Hput Hok. handler_unfold.
  handler_cases;
    try (destruct Hok as [Hok | Hok]; [discriminate Hok | congruence]);
    repeat match goal with
      | H : negb _ = false |- _ => apply negb_false_iff in H
      | H : strict_eq _ _ = true |- _ => apply strict_eq_true in H
      | H : (_ <? _)%nat = false |- _ => apply Nat.ltb_ge in H
      end;
    eexists _, _, _; repeat split; eauto;
    try (intros Hstatus; discriminate Hstatus);
    intros _; eexists _, _, _; repeat split; eauto.
Qed.

(** *** The paths of [onRequestDelete] *)

Lemma delete_missing_access_token ctx b :
  access_cookie ctx = None ->
  DELETE ctx b = (Return (errorResponse 403 "Missing Access Token"), b).
Proof. intros H. handler_unfold. rewrite H. reflexivity. Qed.

Lemma delete_missing_id_token ctx b a :
  access_cookie ctx = Some a -> id_cookie ctx = None ->
  DELETE ctx b = (Return (errorResponse 403 "Missing ID Token"), b).
Proof. intros Ha Hi. handler_unfold. rewrite Ha, Hi. reflexivity. Qed.

Lemma delete_bad_path ctx b a i :
  access_cookie ctx = Some a -> id_cookie ctx = Some i ->
  isArrayOfLength2 (user_id ctx) = false ->
  DELETE ctx b = (Return (errorResponse 400 bad_path), b).
Proof. intros Ha Hi Hp. handler_unfold. rewrite Ha, Hi, Hp. reflexivity. Qed.

Lemma delete_verification_throws ctx b a i e :
  access_cookie ctx = Some a -> id_cookie ctx = Some i ->
  isArrayOfLength2 (user_id ctx) = true ->
  verifyToken a (JWT_SECRET (env ctx)) = Exn e ->
  DELETE ctx b = (Return (errorResponse 400 e), b).
Proof. intros Ha Hi Hp Hv. handler_unfold. rewrite Ha, Hi, Hp, Hv. reflexivity. Qed.

(** Without a payload [payload?.sub] is [undefined], which no user name
    equals. *)
Lemma delete_no_payload ctx b a i :
  access_cookie ctx = Some a -> id_cookie ctx = Some i ->
  isArrayOfLength2 (user_id ctx) = true ->
  verifyToken a (JWT_SECRET (env ctx)) = Val None ->
  DELETE ctx b = (Return (errorResponse 403 "Access Token does not match username"), b).
Proof. intros Ha Hi Hp Hv. handler_unfold. rewrite Ha, Hi, Hp, Hv. reflexivity. Qed.

Lemma delete_not_the_owner ctx b a i p :
  access_cookie ctx = Some a -> id_cookie ctx = Some i ->
  isArrayOfLength2 (user_id ctx) = true ->
  verifyToken a (JWT_SECRET (env ctx)) = Val (Some p) ->
  sub p <> Some (owner_of ctx) ->
  DELETE ctx b = (Return (errorResponse 403 "Access Token does not match username"), b).
Proof.
  intros Ha Hi Hp Hv Hs. handler_unfold. rewrite Ha, Hi, Hp, Hv. simpl.
  assert (strict_eq (Some (owner_of ctx)) (sub p) = false) as ->
    by (apply strict_eq_false; congruence).
  reflexivity.
Qed.

Lemma delete_without_api_role ctx b a i p :
  access_cookie ctx = Some a -> id_cookie ctx = Some i ->
  isArrayOfLength2 (user_id ctx) = true ->
  verifyToken a (JWT_SECRET (env ctx)) = Val (Some p) ->
  sub p = Some (owner_of ctx) ->
  role p <> Some "api" ->
  DELETE ctx b = (Return (errorResponse 403 "Access Token missing 'api' role"), b).
Proof.
  intros Ha Hi Hp Hv Hs Hr. handler_unfold. rewrite Ha, Hi, Hp, Hv. simpl.
  assert (strict_eq (Some (owner_of ctx)) (sub p) = true) as ->
    by (apply strict_eq_true; congruence).
  assert (strict_eq (role p) (Some "api") = false) as ->
    by (apply strict_eq_false; congruence).
  reflexivity.
Qed.

(** Past the checks the delete is issued, whatever the bucket holds. *)
Lemma delete_authorized ctx b a i p :
  access_cookie ctx = Some a -> id_cookie ctx = Some i ->
  isArrayOfLength2 (user_id ctx) = true ->
  verifyToken a (JWT_SECRET (env ctx)) = Val (Some p) ->
  sub p = Some (owner_of ctx) ->
  role p = Some "api" ->
  DELETE ctx b =
    match fault b OpDelete with
    | None =>
        try_catch (respond serializeToken "Chat deleted successfully" a i)
          (fun err => return_ (errorResponse 500 ("Unable to share chat: " +:+ err)))
          (with_objects b (base.delete (key_of ctx) (objects b)))
    | Some e => (Return (errorResponse 500 ("Unable to share chat: " +:+ e)), b)
    end.
Proof.
  intros Ha Hi Hp Hv Hs Hr.
  unfold onRequestDelete, bind, try_catch, await, return_, ret, R2.delete in *.
  rewrite Ha, Hi, Hp, Hv. simpl.
  assert (strict_eq (Some (owner_of ctx)) (sub p) = true) as ->
    by (apply strict_eq_true; congruence).
  assert (strict_eq (role p) (Some "api") = true) as ->
    by (apply strict_eq_true; congruence).
  simpl. destruct (fault b OpDelete); reflexivity.
Qed.

(** A [DELETE] that answers 200, or that changes the bucket, went through
    every check. *)
Lemma delete_success_inv ctx b r b' :
  DELETE ctx b = (Return r, b') ->
  status r = 200 \/ b' <> b ->
  exists a i p,
    access_cookie ctx = Some a /\ id_cookie ctx = Some i /\
    isArrayOfLength2 (user_id ctx) = true /\
    verifyToken a (JWT_SECRET (env ctx)) = Val (Some p) /\
    sub p = Some (owner_of ctx) /\ role p = Some "api" /\
    (status r = 200 ->
     exists access_cookie id_cookie headers,
       serializeToken "access_token" a = Val access_cookie /\
       serializeToken "id_token" i = Val id_cookie /\
       cookie_headers access_cookie id_cookie = Val headers /\
       r = built "Chat deleted successfully" headers).
Proof.
  intros Hdel Hok. handler_unfold.
  handler_cases;
    try (destruct Hok as [Hok | Hok]; [discriminate Hok | congruence]);
    repeat match goal with
      | H : negb _ = false |- _ => apply negb_false_iff in H
      | H : strict_eq _ _ = true |- _ => apply strict_eq_true in H
      end;
    match goal with
    | H : verifyToken _ _ = Val ?payload |- _ =>
        destruct payload as [p|]; [|discriminate]
    end;
    simpl in *; exists s, s0, p; repeat split; try congruence;
    try (intros Hstatus; discriminate Hstatus);
    intros _; eexists _, _, _; repeat split; eauto.
Qed.

(** *** The paths of [onRequestGet] *)

Lemma get_bad_path ctx b :
  isArrayOfLength2 (user_id ctx) = false ->
  GET ctx b = (Return (errorResponse 400 bad_path), b).
Proof. intros Hp. handler_unfold. rewrite Hp. reflexivity. Qed.

Lemma get_store_fails ctx b e :
  isArrayOfLength2 (user_id ctx) = true ->
  fault b OpGet = Some e ->
  GET ctx b = (Return (errorResponse 500 ("Unable to get chat: " +:+ e)), b).
Proof. intros Hp Hf. handler_unfold. rewrite Hp. simpl. rewrite Hf. reflexivity. Qed.

Lemma get_not_found ctx b :
  isArrayOfLength2 (user_id ctx) = true ->
  fault b OpGet = None ->
  objects b !! key_of ctx = None ->
  GET ctx b = (Return (errorResponse 404 (key_of ctx +:+ " not found")), b).
Proof.
  intros Hp Hf Ho. handler_unfold. rewrite Hp. simpl. rewrite Hf, Ho. reflexivity.
Qed.

Lemma get_found ctx b o :
  isArrayOfLength2 (user_id ctx) = true ->
  fault b OpGet = None ->
  objects b !! key_of ctx = Some o ->
  GET ctx b =
    (Return {| body := Some (obj_body o); status := 200;
               headers := headers_set "etag" (httpEtag o) (writeHttpMetadata o []) |},
     b).
Proof.
  intros Hp Hf Ho. handler_unfold. rewrite Hp. simpl. rewrite Hf, Ho. reflexivity.
Qed.

(** No response of [onRequestGet] sets a cookie. *)
Lemma get_sets_no_cookie ctx b r b' :
  GET ctx b = (Return r, b') -> getSetCookie (headers r) = [].
Proof.
  intros Hget. handler_unfold. handler_cases; try reflexivity.
  unfold getSetCookie. simpl.
  rewrite values_of_set_ne by reflexivity.
  rewrite values_of_writeHttpMetadata by reflexivity.
  reflexivity.
Qed.

(** *** The response that ends a request that went through *)

(** The cookies of the headers [new Headers] makes are the two it was given,
    normalized. *)
Lemma cookie_headers_cookies access id hs :
  cookie_headers access id = Val hs ->
  getSetCookie hs = [normalize_value access; normalize_value id].
Proof.
  unfold Headers_new. destruct (forallb _ _); [|discriminate].
  intros H. inversion H. reflexivity.
Qed.

Lemma respond_built {S : Type} message a i access id hs (s : S) :
  serializeToken "access_token" a = Val access ->
  serializeToken "id_token" i = Val id ->
  cookie_headers access id = Val hs ->
  respond serializeToken message a i s = (Return (built message hs), s).
Proof.
  intros Ha Hi Hh. unfold respond, bind, await, return_. rewrite Ha, Hi, Hh. reflexivity.
Qed.

(** A [PUT] that passes every check and whose response can be built. *)
Lemma put_goes_through ctx b a i p access id hs :
  access_cookie ctx = Some a -> id_cookie ctx = Some i ->
  declares_json ctx = true ->
  isArrayOfLength2 (user_id ctx) = true ->
  verifyToken a (JWT_SECRET (env ctx)) = Val (Some p) ->
  sub p = Some (owner_of ctx) ->
  role p = Some "api" ->
  fault b OpList = None ->
  (length (listing b (owner_of ctx +:+ "/")) <= 500)%nat ->
  (length (recent now (listing b (owner_of ctx +:+ "/"))) <= 10)%nat ->
  fault b OpPut = None ->
  serializeToken "access_token" a = Val access ->
  serializeToken "id_token" i = Val id ->
  cookie_headers access id = Val hs ->
  PUT ctx b =
    (Return (built "Chat shared successfully" hs),
     with_objects b
       (<[key_of ctx := stored etag_of now (key_of ctx) (req_body (request ctx))]>
          (objects b))).
Proof.
  intros Ha Hi Hj Hp Hv Hs Hr Hl Hn Hd Hf Hca Hci Hh.
  rewrite (put_within_limits ctx b a i p) by assumption.
  unfold try_catch. rewrite (respond_built _ _ _ _ _ _ _ Hca Hci Hh). reflexivity.
Qed.

(** A [DELETE] that passes every check and whose response can be built. *)
Lemma delete_goes_through ctx b a i p access id hs :
  access_cookie ctx = Some a -> id_cookie ctx = Some i ->
  isArrayOfLength2 (user_id ctx) = true ->
  verifyToken a (JWT_SECRET (env ctx)) = Val (Some p) ->
  sub p = Some (owner_of ctx) ->
  role p = Some "api" ->
  fault b OpDelete = None ->
  serializeToken "access_token" a = Val access ->
  serializeToken "id_token" i = Val id ->
  cookie_headers access id = Val hs ->
  DELETE ctx b =
    (Return (built "Chat deleted successfully" hs),
     with_objects b (base.delete (key_of ctx) (objects b))).
Proof.
  intros Ha Hi Hp Hv Hs Hr Hf Hca Hci Hh.
  rewrite (delete_authorized ctx b a i p) by assumption. rewrite Hf.
  unfold try_catch. rewrite (respond_built _ _ _ _ _ _ _ Hca Hci Hh). reflexivity.
Qed.

(** What a [PUT] or a [DELETE] leaves of the bucket: the bucket as it was, or
    the bucket after the one write of the handler. *)
Lemma put_bucket ctx b r b' :
  PUT ctx b = (Return r, b') ->
  b' = b \/
  (b' = with_objects b
          (<[key_of ctx := stored etag_of now (key_of ctx) (req_body (request ctx))]>
             (objects b)) /\
   (status r = 200 \/ exists e, r = errorResponse 500 ("Unable to share chat: " +:+ e)) /\
   (length (listing b (owner_of ctx +:+ "/")) <= 500)%nat).
Proof.
  intros Hput. handler_unfold.
  handler_cases; auto; right;
    repeat match goal with
      | H : (_ <? _)%nat = false |- _ => apply Nat.ltb_ge in H
      end;
    (split; [reflexivity | split; [eauto | assumption]]).
Qed.

Lemma delete_bucket ctx b r b' :
  DELETE ctx b = (Return r, b') ->
  b' = b \/
  (b' = with_objects b (base.delete (key_of ctx) (objects b)) /\
   (status r = 200 \/ exists e, r = errorResponse 500 ("Unable to share chat: " +:+ e))).
Proof.
  intros Hdel. handler_unfold.
  handler_cases; auto; right; (split; [reflexivity | eauto]).
Qed.

(** A request that a check rejected, or that the store failed, is answered
    with [errorResponse]; so is one whose response could not be built. *)
Lemma not_200_is_an_error ctx b r b' :
  PUT ctx b = (Return r, b') \/ DELETE ctx b = (Return r, b') ->
  status r <> 200 ->
  exists code message,
    r = errorResponse code message /\
    (code = 400 \/ code = 403 \/ code = 429 \/ code = 500) /\
    (code <> 500 -> b' = b).
Proof.
  intros [Hput | Hdel] Hnot; handler_unfold; handler_cases;
    try (exfalso; apply Hnot; reflexivity);
    eexists _, _; (split; [reflexivity|]); (split; [auto|]);
    intros Hcode; try reflexivity; try (exfalso; apply Hcode; reflexivity).
Qed.

(** *** What the handlers change *)

(** [PUT] changes the bucket at the key of the request at most, and it leaves
    the failures of the store as they are. *)
Lemma put_touches_only_the_key ctx b r b' k :
  PUT ctx b = (Return r, b') ->
  k <> key_of ctx ->
  objects b' !! k = objects b !! k.
Proof.
  intros Hput Hk. handler_unfold.
  handler_cases; simpl; apply lookup_insert_ne; congruence.
Qed.

Lemma delete_touches_only_the_key ctx b r b' k :
  DELETE ctx b = (Return r, b') ->
  k <> key_of ctx ->
  objects b' !! k = objects b !! k.
Proof.
  intros Hdel Hk. handler_unfold.
  handler_cases; simpl; apply lookup_delete_ne; congruence.
Qed.

End ShareFacts.

(** ** The scenarios of section 8 *)

(** [PUT /api/share/alice/123] by [alice], who has three shares of which one
    is of the last day: 200, the body is stored under [alice/123] and the two
    cookies are set again. *)
Example put_scenario :
  fst (Examples.PUT
         (Examples.context (Examples.json_request "alice.access" "alice.id")
            ["alice"; "123"])
         (Examples.bucket_with "alice" 2 1))
  = Return (Share.success Codec.serializeToken "Chat shared successfully"
              "alice.access" "alice.id") /\
  obj_body <$>
    objects (snd (Examples.PUT
                    (Examples.context (Examples.json_request "alice.access" "alice.id")
                       ["alice"; "123"])
                    (Examples.bucket_with "alice" 2 1))) !! "alice/123"
  = Some "{}".
Proof. split; vm_compute; reflexivity. Qed.

(** [GET] of that key afterwards gives the body with an [ETag]; [GET] of a key
    that was never written gives 404. *)
Example get_scenario :
  fst (Examples.GET
         (Examples.context Examples.anonymous_request ["alice"; "123"])
         (snd (Examples.PUT
                 (Examples.context (Examples.json_request "alice.access" "alice.id")
                    ["alice"; "123"])
                 (Examples.bucket_with "alice" 2 1))))
  = Return {| body := Some "{}"; status := 200; headers := [("etag", "etag-2")] |} /\
  fst (Examples.GET
         (Examples.context Examples.anonymous_request ["alice"; "999"])
         (Examples.bucket_with "alice" 2 1))
  = Return (errorResponse 404 "alice/999 not found").
Proof. split; vm_compute; reflexivity. Qed.

(** [DELETE] of a share of [alice] with the token of [bob] is answered 403;
    with the token of [alice] it is answered 200 and a [GET] then gives 404. *)
Example delete_scenario :
  Examples.DELETE
    (Examples.context (Examples.json_request "bob.access" "bob.id") ["alice"; "chat0"])
    (Examples.bucket_with "alice" 0 1)
  = (Return (errorResponse 403 "Access Token does not match username"),
     Examples.bucket_with "alice" 0 1) /\
  fst (Examples.DELETE
         (Examples.context (Examples.json_request "alice.access" "alice.id")
            ["alice"; "chat0"])
         (Examples.bucket_with "alice" 0 1))
  = Return (Share.success Codec.serializeToken "Chat deleted successfully"
              "alice.access" "alice.id") /\
  fst (Examples.GET
         (Examples.context Examples.anonymous_request ["alice"; "chat0"])
         (snd (Examples.DELETE
                 (Examples.context (Examples.json_request "alice.access" "alice.id")
                    ["alice"; "chat0"])
                 (Examples.bucket_with "alice" 0 1))))
  = Return (errorResponse 404 "alice/chat0 not found").
Proof. repeat split; vm_compute; reflexivity. Qed.

(** The quota tests reject from 501 listed objects and from 11 uploads of the
    last day on. *)
Example put_over_the_limits :
  fst (Examples.PUT
         (Examples.context (Examples.json_request "alice.access" "alice.id")
            ["alice"; "new"])
         (Examples.bucket_with "alice" 501 0))
  = Return (errorResponse 403 "Exceeded total share limit") /\
  fst (Examples.PUT
         (Examples.context (Examples.json_request "alice.access" "alice.id")
            ["alice"; "new"])
         (Examples.bucket_with "alice" 0 11))
  = Return (errorResponse 429 "Too many shares in a 24-hour period").
Proof. split; vm_compute; reflexivity. Qed.

(** A store that fails: [GET] answers 500, and [PUT] answers 400 when it is
    the listing that fails, which is inside the first [try]. *)
Example store_failures :
  fst (Examples.GET
         (Examples.context Examples.anonymous_request ["alice"; "chat0"])
         (Examples.failing OpGet "R2 is down" (Examples.bucket_with "alice" 0 1)))
  = Return (errorResponse 500 "Unable to get chat: R2 is down") /\
  fst (Examples.PUT
         (Examples.context (Examples.json_request "alice.access" "alice.id")
            ["alice"; "new"])
         (Examples.failing OpList "R2 is down" (Examples.bucket_with "alice" 0 1)))
  = Return (errorResponse 400 "R2 is down").
Proof. split; vm_compute; reflexivity. Qed.

(** A login that completes: the redirect to the chat, with the two cookies. *)
Example login_scenario :
  fst (Login.onRequestGet LoginExamples.buildUrl LoginExamples.requestAccessToken
         LoginExamples.requestUserInfo LoginExamples.createToken
         Codec.serializeToken LoginExamples.URL_href
         [("code", "good-code"); ("state", "chat42")]
         {| Login.CLIENT_ID := "client-id"; Login.CLIENT_SECRET := "client-secret";
            Login.JWT_SECRET := "s3cret" |} tt)
  = Return {| body := None; status := 302;
              headers := [ ("Location", "https://chatcraft.org/c/chat42");
                           ("Set-Cookie", Codec.serializeToken "access_token" "alice.api");
                           ("Set-Cookie", Codec.serializeToken "id_token" "alice.profile") ] |} /\
  fst (LoginExamples.login None (Some "chat42") tt)
  = Return (Response_redirect
              "https://github.com/login/oauth/authorize?client_id=client-id&state=chat42"
              302).
Proof. split; vm_compute; reflexivity. Qed.

(** ** The claims about the sharing gateway *)

(** C1, on the code: the quota tests of [onRequestPut] are
    [objects.length > 500] and [recentShares.length > 10] on the listing made
    before the write.  For an owner whose listing holds exactly 500 objects the
    request of the owner, with valid cookies, a JSON body and a two-segment
    key, is answered 200 and the object is written, the 501st under the
    prefix; and for an owner with exactly 10 uploads of the last 24 hours it is
    answered 200 as well, the upload being the 11th of the day.  Neither
    request is rejected. *)
Theorem put_at_500_shares_or_10_recent_goes_through :
  (length (listing (Examples.bucket_with "alice" 500 0) "alice/") = 500%nat /\
   fst (Examples.PUT
          (Examples.context (Examples.json_request "alice.access" "alice.id")
             ["alice"; "new"])
          (Examples.bucket_with "alice" 500 0))
   = Return (Share.success Codec.serializeToken "Chat shared successfully"
               "alice.access" "alice.id") /\
   length (listing
             (snd (Examples.PUT
                     (Examples.context (Examples.json_request "alice.access" "alice.id")
                        ["alice"; "new"])
                     (Examples.bucket_with "alice" 500 0)))
             "alice/") = 501%nat)
  /\
  (length (recent Examples.clock (listing (Examples.bucket_with "alice" 0 10) "alice/"))
   = 10%nat /\
   fst (Examples.PUT
          (Examples.context (Examples.json_request "alice.access" "alice.id")
             ["alice"; "new"])
          (Examples.bucket_with "alice" 0 10))
   = Return (Share.success Codec.serializeToken "Chat shared successfully"
               "alice.access" "alice.id") /\
   length (recent Examples.clock
             (listing
                (snd (Examples.PUT
                        (Examples.context (Examples.json_request "alice.access" "alice.id")
                           ["alice"; "new"])
                        (Examples.bucket_with "alice" 0 10)))
                "alice/")) = 11%nat).
Proof. repeat split; vm_compute; reflexivity. Qed.

(** C2, counterexample: a [PUT] whose access token cannot be decoded and whose
    body is declared as plain text is answered 400 ("Expected JSON"), and a
    [DELETE] with an expired access token on a key of three segments is
    answered 400 as well: neither is answered 403. *)
Lemma rejected_token_on_a_bad_request_is_bad_request :
  Codec.verify Examples.issued Examples.clock "garbage" Examples.secret
    = inl Codec.Malformed /\
  (exists r,
     fst (Examples.PUT
            (Examples.context (Examples.text_request "garbage" "alice.id")
               ["alice"; "new"])
            (Examples.bucket_with "alice" 0 1)) = Return r /\
     status r = 400 /\ status r <> 403) /\
  Codec.verify Examples.issued Examples.clock "alice.expired" Examples.secret
    = inl Codec.Expired /\
  (exists r,
     fst (Examples.DELETE
            (Examples.context (Examples.json_request "alice.expired" "alice.id")
               ["alice"; "chats"; "new"])
            (Examples.bucket_with "alice" 0 1)) = Return r /\
     status r = 400 /\ status r <> 403).
Proof.
  split; [reflexivity|]. split.
  - eexists. split; [vm_compute; reflexivity|]. split; [reflexivity | discriminate].
  - split; [reflexivity|].
    eexists. split; [vm_compute; reflexivity|]. split; [reflexivity | discriminate].
Qed.

(** The verifier of the specification gives no payload for a token it
    rejects. *)
Lemma rejected_by_the_codec_is_no_payload issued now tok secret f :
  Codec.verify issued now tok secret = inl f ->
  Codec.verifyToken issued now tok secret = Val None.
Proof. intros H. unfold Codec.verifyToken. rewrite H. reflexivity. Qed.

(** C2, amended: for every request whose access token fails verification,
    the verifier giving no payload or throwing, [PUT] and [DELETE] return an
    error response and leave the bucket as it is.  The response is the one of
    the first test that fails, in the order of the code: 403 "Missing Access
    Token" for an empty access token; 403 "Missing ID Token" when the ID token
    is missing or empty; for [PUT], 400 "Expected JSON" when the request does
    not declare JSON; 400 for a key that is not of two segments; and past
    these tests 403 when the verifier gives no payload ("Invalid Access Token"
    from [PUT], "Access Token does not match username" from [DELETE]) and 400
    with the message of the error when the verifier throws. *)
Theorem rejected_token_mutates_nothing :
  forall (getTokens : Request -> Tokens)
         (verifyToken : string -> string -> Outcome (option JwtPayload))
         (serializeToken : string -> string -> Outcome string)
         (etag_of : string -> string) (now : Z)
         (ctx : EventContext) (b : R2Bucket) (a : string),
    accessToken (getTokens (request ctx)) = Some a ->
    verifyToken a (JWT_SECRET (env ctx)) = Val None \/
    (exists e, verifyToken a (JWT_SECRET (env ctx)) = Exn e) ->
    (snd (onRequestPut getTokens verifyToken serializeToken etag_of now ctx b) = b /\
     snd (onRequestDelete getTokens verifyToken serializeToken ctx b) = b) /\
    (a = EmptyString ->
     onRequestPut getTokens verifyToken serializeToken etag_of now ctx b
     = (Return (errorResponse 403 "Missing Access Token"), b) /\
     onRequestDelete getTokens verifyToken serializeToken ctx b
     = (Return (errorResponse 403 "Missing Access Token"), b)) /\
    (a <> EmptyString ->
     truthy (idToken (getTokens (request ctx))) = None ->
     onRequestPut getTokens verifyToken serializeToken etag_of now ctx b
     = (Return (errorResponse 403 "Missing ID Token"), b) /\
     onRequestDelete getTokens verifyToken serializeToken ctx b
     = (Return (errorResponse 403 "Missing ID Token"), b)) /\
    (forall i,
       a <> EmptyString ->
       truthy (idToken (getTokens (request ctx))) = Some i ->
       (declares_json ctx = false ->
        onRequestPut getTokens verifyToken serializeToken etag_of now ctx b
        = (Return (errorResponse 400 "Expected JSON"), b)) /\
       (isArrayOfLength2 (user_id ctx) = false ->
        (declares_json ctx = true ->
         onRequestPut getTokens verifyToken serializeToken etag_of now ctx b
         = (Return (errorResponse 400 bad_path), b)) /\
        onRequestDelete getTokens verifyToken serializeToken ctx b
        = (Return (errorResponse 400 bad_path), b)) /\
       (isArrayOfLength2 (user_id ctx) = true ->
        verifyToken a (JWT_SECRET (env ctx)) = Val None ->
        (declares_json ctx = true ->
         onRequestPut getTokens verifyToken serializeToken etag_of now ctx b
         = (Return (errorResponse 403 "Invalid Access Token"), b)) /\
        onRequestDelete getTokens verifyToken serializeToken ctx b
        = (Return (errorResponse 403 "Access Token does not match username"), b)) /\
       (forall e,
          isArrayOfLength2 (user_id ctx) = true ->
          verifyToken a (JWT_SECRET (env ctx)) = Exn e ->
          (declares_json ctx = true ->
           onRequestPut getTokens verifyToken serializeToken etag_of now ctx b
           = (Return (errorResponse 400 e), b)) /\
          onRequestDelete getTokens verifyToken serializeToken ctx b
          = (Return (errorResponse 400 e), b))).
Proof.
  intros getTokens verifyToken serializeToken etag_of now ctx b a Ha Hfails.
  assert (Htruthy : a <> EmptyString ->
                    truthy (accessToken (getTokens (request ctx))) = Some a).
  { intros Hne. rewrite Ha. destruct a; [contradiction | reflexivity]. }
  split; [|split; [|split; [|intros i Hne Hi; split; [|split; [|split]]]]].
  - destruct (String.string_dec a EmptyString) as [-> | Hne].
    { rewrite put_missing_access_token, delete_missing_access_token
        by (rewrite Ha; reflexivity). split; reflexivity. }
    specialize (Htruthy Hne).
    destruct (truthy (idToken (getTokens (request ctx)))) as [i|] eqn:Hi.
    2: { rewrite (put_missing_id_token _ _ _ _ _ _ _ a),
           (delete_missing_id_token _ _ _ _ _ a) by assumption.
         split; reflexivity. }
    split.
    + destruct (declares_json ctx) eqn:Hj;
        [|rewrite (put_expected_json _ _ _ _ _ _ _ a i) by assumption; reflexivity].
      destruct (isArrayOfLength2 (user_id ctx)) eqn:Hp;
        [|rewrite (put_bad_path _ _ _ _ _ _ _ a i) by assumption; reflexivity].
      destruct Hfails as [Hv | [e Hv]].
      * rewrite (put_no_payload _ _ _ _ _ _ _ a i) by assumption. reflexivity.
      * rewrite (put_verification_throws _ _ _ _ _ _ _ a i e) by assumption. reflexivity.
    + destruct (isArrayOfLength2 (user_id ctx)) eqn:Hp;
        [|rewrite (delete_bad_path _ _ _ _ _ a i) by assumption; reflexivity].
      destruct Hfails as [Hv | [e Hv]].
      * rewrite (delete_no_payload _ _ _ _ _ a i) by assumption. reflexivity.
      * rewrite (delete_verification_throws _ _ _ _ _ a i e) by assumption. reflexivity.
  - intros ->. split;
      [apply put_missing_access_token | apply delete_missing_access_token];
      rewrite Ha; reflexivity.
  - intros Hne Hi. specialize (Htruthy Hne). split.
    + eapply put_missing_id_token; eassumption.
    + eapply delete_missing_id_token; eassumption.
  - intros Hj. eapply put_expected_json; eauto.
  - intros Hp. split.
    + intros Hj. eapply put_bad_path; eauto.
    + eapply delete_bad_path; eauto.
  - intros Hp Hv. split.
    + intros Hj. eapply put_no_payload; eauto.
    + eapply delete_no_payload; eauto.
  - intros e Hp Hv. split.
    + intros Hj. eapply put_verification_throws; eauto.
    + eapply delete_verification_throws; eauto.
Qed.

Lemma rejected_token_mutates_nothing_witness :
  accessToken (Codec.getTokens
                 (request (Examples.context
                             (Examples.json_request "alice.expired" "alice.id")
                             ["alice"; "chat0"])))
    = Some "alice.expired" /\
  Codec.verify Examples.issued Examples.clock "alice.expired" Examples.secret
    = inl Codec.Expired /\
  Codec.verifyToken Examples.issued Examples.clock "alice.expired" Examples.secret
    = Val None /\
  is_Some (objects (Examples.bucket_with "alice" 0 1) !! "alice/chat0") /\
  Examples.PUT
    (Examples.context (Examples.json_request "alice.expired" "alice.id") ["alice"; "chat0"])
    (Examples.bucket_with "alice" 0 1)
  = (Return (errorResponse 403 "Invalid Access Token"), Examples.bucket_with "alice" 0 1) /\
  Examples.DELETE
    (Examples.context (Examples.json_request "alice.expired" "alice.id") ["alice"; "chat0"])
    (Examples.bucket_with "alice" 0 1)
  = (Return (errorResponse 403 "Access Token does not match username"),
     Examples.bucket_with "alice" 0 1).
Proof.
  split; [reflexivity|]. split; [reflexivity|]. split; [reflexivity|].
  split; [vm_compute; eauto|].
  destruct (rejected_token_mutates_nothing
              Codec.getTokens (Codec.verifyToken Examples.issued Examples.clock)
              Examples.serializeToken Examples.etag_of Examples.clock
              (Examples.context (Examples.json_request "alice.expired" "alice.id")
                 ["alice"; "chat0"])
              (Examples.bucket_with "alice" 0 1) "alice.expired"
              eq_refl (or_introl eq_refl)) as (_ & _ & _ & Hpast).
  destruct (Hpast "alice.id" ltac:(discriminate) eq_refl) as (_ & _ & Hnull & _).
  destruct (Hnull eq_refl eq_refl) as [Hput Hdel].
  split; [exact (Hput eq_refl) | exact Hdel].
Defined.

(** C3, counterexample: with a verifier that throws on a token it cannot
    decode, [PUT] answers 400 with the message of the error, as [DELETE] does:
    the exception is not mapped to 403 in Create. *)
Lemma put_verification_exception_is_bad_request :
  Codec.verifyToken_throwing Examples.issued Examples.clock "garbage" Examples.secret
    = Exn "token must consist of 3 parts" /\
  onRequestPut Codec.getTokens (Codec.verifyToken_throwing Examples.issued Examples.clock)
    Examples.serializeToken Examples.etag_of Examples.clock
    (Examples.context (Examples.json_request "garbage" "alice.id") ["alice"; "new"])
    (Examples.bucket_with "alice" 0 1)
  = (Return (errorResponse 400 "token must consist of 3 parts"),
     Examples.bucket_with "alice" 0 1) /\
  onRequestDelete Codec.getTokens (Codec.verifyToken_throwing Examples.issued Examples.clock)
    Examples.serializeToken
    (Examples.context (Examples.json_request "garbage" "alice.id") ["alice"; "new"])
    (Examples.bucket_with "alice" 0 1)
  = (Return (errorResponse 400 "token must consist of 3 parts"),
     Examples.bucket_with "alice" 0 1) /\
  status (errorResponse 400 "token must consist of 3 parts") <> 403.
Proof.
  split; [reflexivity|].
  split; [vm_compute; reflexivity|].
  split; [vm_compute; reflexivity | discriminate].
Qed.

(** C3, amended: an exception raised during the verification of the access
    token is caught and converted to BadRequest (400) carrying the message of
    the error in Delete and in Create alike: the two do not differ in the
    status an exception is mapped to.  Forbidden is the answer of both to a
    verification that gives no payload, Create with "Invalid Access Token" and
    Delete with "Access Token does not match username". *)
Theorem verification_exception_is_bad_request_in_both :
  forall (getTokens : Request -> Tokens)
         (verifyToken : string -> string -> Outcome (option JwtPayload))
         (serializeToken : string -> string -> Outcome string)
         (etag_of : string -> string) (now : Z)
         (ctx : EventContext) (b : R2Bucket) (a i : string),
    truthy (accessToken (getTokens (request ctx))) = Some a ->
    truthy (idToken (getTokens (request ctx))) = Some i ->
    declares_json ctx = true ->
    isArrayOfLength2 (user_id ctx) = true ->
    (forall e,
       verifyToken a (JWT_SECRET (env ctx)) = Exn e ->
       onRequestDelete getTokens verifyToken serializeToken ctx b
         = (Return (errorResponse 400 e), b) /\
       onRequestPut getTokens verifyToken serializeToken etag_of now ctx b
         = (Return (errorResponse 400 e), b)) /\
    (verifyToken a (JWT_SECRET (env ctx)) = Val None ->
     onRequestDelete getTokens verifyToken serializeToken ctx b
       = (Return (errorResponse 403 "Access Token does not match username"), b) /\
     onRequestPut getTokens verifyToken serializeToken etag_of now ctx b
       = (Return (errorResponse 403 "Invalid Access Token"), b)).
Proof.
  intros getTokens verifyToken serializeToken etag_of now ctx b a i Ha Hi Hj Hp.
  split.
  - intros e Hv. split.
    + eapply delete_verification_throws; eassumption.
    + eapply put_verification_throws; eassumption.
  - intros Hv. split.
    + eapply delete_no_payload; eassumption.
    + eapply put_no_payload; eassumption.
Qed.

Lemma verification_exception_is_bad_request_in_both_witness :
  truthy (accessToken
            (Codec.getTokens
               (request (Examples.context (Examples.json_request "garbage" "alice.id")
                           ["alice"; "new"]))))
    = Some "garbage" /\
  Codec.verifyToken_throwing Examples.issued Examples.clock "garbage" Examples.secret
    = Exn "token must consist of 3 parts" /\
  onRequestDelete Codec.getTokens (Codec.verifyToken_throwing Examples.issued Examples.clock)
    Examples.serializeToken
    (Examples.context (Examples.json_request "garbage" "alice.id") ["alice"; "new"])
    (Examples.bucket_with "alice" 0 1)
  = (Return (errorResponse 400 "token must consist of 3 parts"),
     Examples.bucket_with "alice" 0 1) /\
  onRequestPut Codec.getTokens (Codec.verifyToken_throwing Examples.issued Examples.clock)
    Examples.serializeToken Examples.etag_of Examples.clock
    (Examples.context (Examples.json_request "garbage" "alice.id") ["alice"; "new"])
    (Examples.bucket_with "alice" 0 1)
  = (Return (errorResponse 400 "token must consist of 3 parts"),
     Examples.bucket_with "alice" 0 1).
Proof.
  split; [reflexivity|]. split; [reflexivity|].
  apply (verification_exception_is_bad_request_in_both
           Codec.getTokens (Codec.verifyToken_throwing Examples.issued Examples.clock)
           Examples.serializeToken Examples.etag_of Examples.clock
           (Examples.context (Examples.json_request "garbage" "alice.id") ["alice"; "new"])
           (Examples.bucket_with "alice" 0 1) "garbage" "alice.id"
           eq_refl eq_refl eq_refl eq_refl).
  reflexivity.
Defined.

(** C4, counterexample: a [PUT] under [bob/] with the valid access token of
    [alice] and a body declared as plain text is rejected with 400
    ("Expected JSON"), not with 403. *)
Lemma put_by_another_user_with_a_text_body_is_bad_request :
  Codec.verifyToken Examples.issued Examples.clock "alice.access" Examples.secret
    = Val (Some (Examples.api_payload "alice" (Examples.clock + 1000))) /\
  exists r,
    fst (Examples.PUT
           (Examples.context (Examples.text_request "alice.access" "alice.id")
              ["bob"; "chat1"])
           (Examples.bucket_with "bob" 0 1)) = Return r /\
    status r = 400 /\ status r <> 403.
Proof.
  split; [reflexivity|].
  eexists. split; [vm_compute; reflexivity|]. split; [reflexivity | discriminate].
Qed.

(** C4, amended: for all keys (owner, id), Create and Delete return 200 or
    change the bucket only when the access token verifies to a payload whose
    subject equals the owner segment and whose role is "api".  A request whose
    verified token has another subject or another role changes nothing and is
    rejected by the first test that fails: with 403 "Missing ID Token" when
    the ID token is missing or empty; otherwise, by Delete and by a Create
    that declares a JSON body, with 403 "Access Token does not match
    username" for another subject and 403 "Access Token missing 'api' role"
    for the subject of the owner with another role, and by a Create that does
    not declare a JSON body with 400 "Expected JSON".  Whatever the request,
    the objects under the other keys stay as they are. *)
Theorem only_the_owner_with_the_api_role_mutates :
  forall (getTokens : Request -> Tokens)
         (verifyToken : string -> string -> Outcome (option JwtPayload))
         (serializeToken : string -> string -> Outcome string)
         (etag_of : string -> string) (now : Z)
         (ctx : EventContext) (b : R2Bucket) (owner id : string),
    user_id ctx = PArray [owner; id] ->
    (forall r b',
       onRequestPut getTokens verifyToken serializeToken etag_of now ctx b = (Return r, b') \/
       onRequestDelete getTokens verifyToken serializeToken ctx b = (Return r, b') ->
       status r = 200 \/ b' <> b ->
       exists a p,
         truthy (accessToken (getTokens (request ctx))) = Some a /\
         verifyToken a (JWT_SECRET (env ctx)) = Val (Some p) /\
         sub p = Some owner /\ role p = Some "api") /\
    (forall a p,
       truthy (accessToken (getTokens (request ctx))) = Some a ->
       verifyToken a (JWT_SECRET (env ctx)) = Val (Some p) ->
       sub p <> Some owner \/ role p <> Some "api" ->
       (truthy (idToken (getTokens (request ctx))) = None ->
        onRequestPut getTokens verifyToken serializeToken etag_of now ctx b
        = (Return (errorResponse 403 "Missing ID Token"), b) /\
        onRequestDelete getTokens verifyToken serializeToken ctx b
        = (Return (errorResponse 403 "Missing ID Token"), b)) /\
       (forall i,
          truthy (idToken (getTokens (request ctx))) = Some i ->
          onRequestDelete getTokens verifyToken serializeToken ctx b
          = (Return (errorResponse 403
                       (if bool_decide (sub p = Some owner)
                        then "Access Token missing 'api' role"
                        else "Access Token does not match username")), b) /\
          (declares_json ctx = true ->
           onRequestPut getTokens verifyToken serializeToken etag_of now ctx b
           = (Return (errorResponse 403
                        (if bool_decide (sub p = Some owner)
                         then "Access Token missing 'api' role"
                         else "Access Token does not match username")), b)) /\
          (declares_json ctx = false ->
           onRequestPut getTokens verifyToken serializeToken etag_of now ctx b
           = (Return (errorResponse 400 "Expected JSON"), b)))) /\
    (forall r b' k,
       onRequestPut getTokens verifyToken serializeToken etag_of now ctx b = (Return r, b') \/
       onRequestDelete getTokens verifyToken serializeToken ctx b = (Return r, b') ->
       k <> owner +:+ "/" +:+ id ->
       objects b' !! k = objects b !! k).
Proof.
  intros getTokens verifyToken serializeToken etag_of now ctx b owner id Hpath.
  assert (Hkey : join "/" (segments_of (user_id ctx)) = owner +:+ "/" +:+ id)
    by (rewrite Hpath; reflexivity).
  assert (Hp : isArrayOfLength2 (user_id ctx) = true) by (rewrite Hpath; reflexivity).
  assert (Ho : hd EmptyString (segments_of (user_id ctx)) = owner)
    by (rewrite Hpath; reflexivity).
  split; [|split].
  3: { intros r b' k [Hput | Hdel] Hk; rewrite <- Hkey in Hk.
       - eapply put_touches_only_the_key; eassumption.
       - eapply delete_touches_only_the_key; eassumption. }
  - intros r b' [Hput | Hdel] Hok.
    + destruct (put_success_inv _ _ _ _ _ _ _ _ _ Hput Hok)
        as (a & i & p & Ha & _ & _ & _ & Hv & Hs & Hr & _).
      exists a, p. rewrite Ho in Hs. auto.
    + destruct (delete_success_inv _ _ _ _ _ _ _ Hdel Hok)
        as (a & i & p & Ha & _ & _ & Hv & Hs & Hr & _).
      exists a, p. rewrite Ho in Hs. auto.
  - intros a p Ha Hv Hbad. split.
    { intros Hi. split.
      - eapply put_missing_id_token; eassumption.
      - eapply delete_missing_id_token; eassumption. }
    intros i Hi.
    destruct (bool_decide (sub p = Some owner)) eqn:Hsub.
    + apply bool_decide_eq_true in Hsub.
      assert (Hr : role p <> Some "api") by (destruct Hbad; [contradiction | assumption]).
      split; [|split].
      * eapply delete_without_api_role; eauto; congruence.
      * intros Hj. eapply put_without_api_role; eauto; congruence.
      * intros Hj. eapply put_expected_json; eauto.
    + apply bool_decide_eq_false in Hsub.
      split; [|split].
      * eapply delete_not_the_owner; eauto; congruence.
      * intros Hj. eapply put_not_the_owner; eauto; congruence.
      * intros Hj. eapply put_expected_json; eauto.
Qed.

Lemma only_the_owner_with_the_api_role_mutates_witness :
  user_id (Examples.context (Examples.json_request "alice.access" "alice.id")
             ["bob"; "chat1"]) = PArray ["bob"; "chat1"] /\
  is_Some (objects (Examples.bucket_with "bob" 0 2) !! "bob/chat1") /\
  Examples.DELETE
    (Examples.context (Examples.json_request "alice.access" "alice.id") ["bob"; "chat1"])
    (Examples.bucket_with "bob" 0 2)
  = (Return (errorResponse 403 "Access Token does not match username"),
     Examples.bucket_with "bob" 0 2) /\
  Examples.PUT
    (Examples.context (Examples.text_request "alice.access" "alice.id") ["bob"; "chat1"])
    (Examples.bucket_with "bob" 0 2)
  = (Return (errorResponse 400 "Expected JSON"), Examples.bucket_with "bob" 0 2).
Proof.
  split; [reflexivity|]. split; [vm_compute; eauto|]. split.
  - destruct (only_the_owner_with_the_api_role_mutates
                Codec.getTokens (Codec.verifyToken Examples.issued Examples.clock)
                Examples.serializeToken Examples.etag_of Examples.clock
                (Examples.context (Examples.json_request "alice.access" "alice.id")
                   ["bob"; "chat1"])
                (Examples.bucket_with "bob" 0 2) "bob" "chat1" eq_refl) as [_ [Hrej _]].
    destruct (Hrej "alice.access" (Examples.api_payload "alice" (Examples.clock + 1000))
                eq_refl eq_refl ltac:(left; discriminate)) as [_ Hpast].
    destruct (Hpast "alice.id" eq_refl) as [Hdel _]. exact Hdel.
  - destruct (only_the_owner_with_the_api_role_mutates
                Codec.getTokens (Codec.verifyToken Examples.issued Examples.clock)
                Examples.serializeToken Examples.etag_of Examples.clock
                (Examples.context (Examples.text_request "alice.access" "alice.id")
                   ["bob"; "chat1"])
                (Examples.bucket_with "bob" 0 2) "bob" "chat1" eq_refl) as [_ [Hrej _]].
    destruct (Hrej "alice.access" (Examples.api_payload "alice" (Examples.clock + 1000))
                eq_refl eq_refl ltac:(left; discriminate)) as [_ Hpast].
    destruct (Hpast "alice.id" eq_refl) as (_ & _ & Hput). exact (Hput eq_refl).
Defined.

(** C5, counterexample: a [PUT] and a [DELETE] without cookies on a key of one
    segment are answered 403 ("Missing Access Token"), not 400: the cookies
    are looked at before the path. *)
Lemma bad_key_without_cookies_is_forbidden :
  isArrayOfLength2 (user_id (Examples.context Examples.anonymous_request ["alice"]))
    = false /\
  Examples.PUT (Examples.context Examples.anonymous_request ["alice"])
    (Examples.bucket_with "alice" 0 1)
  = (Return (errorResponse 403 "Missing Access Token"), Examples.bucket_with "alice" 0 1) /\
  Examples.DELETE (Examples.context Examples.anonymous_request ["alice"])
    (Examples.bucket_with "alice" 0 1)
  = (Return (errorResponse 403 "Missing Access Token"), Examples.bucket_with "alice" 0 1) /\
  status (errorResponse 403 "Missing Access Token") <> 400.
Proof.
  split; [reflexivity|].
  split; [vm_compute; reflexivity|].
  split; [vm_compute; reflexivity | discriminate].
Qed.

(** C5, amended: when the resource key is not exactly a two-segment path,
    [GET] fails with BadRequest (400), and so do [PUT] and [DELETE] for a
    request that carries both token cookies; a [PUT] or [DELETE] that lacks a
    cookie fails with Forbidden (403) before the path is looked at.  Nothing
    is written or deleted in any of these cases. *)
Theorem bad_key_is_bad_request_past_the_cookies :
  forall (getTokens : Request -> Tokens)
         (verifyToken : string -> string -> Outcome (option JwtPayload))
         (serializeToken : string -> string -> Outcome string)
         (etag_of : string -> string) (now : Z)
         (ctx : EventContext) (b : R2Bucket),
    isArrayOfLength2 (user_id ctx) = false ->
    onRequestGet ctx b = (Return (errorResponse 400 bad_path), b) /\
    (forall a i,
       truthy (accessToken (getTokens (request ctx))) = Some a ->
       truthy (idToken (getTokens (request ctx))) = Some i ->
       onRequestDelete getTokens verifyToken serializeToken ctx b
         = (Return (errorResponse 400 bad_path), b) /\
       exists r,
         onRequestPut getTokens verifyToken serializeToken etag_of now ctx b
           = (Return r, b) /\
         status r = 400) /\
    (truthy (accessToken (getTokens (request ctx))) = None \/
     truthy (idToken (getTokens (request ctx))) = None ->
     exists r r',
       onRequestPut getTokens verifyToken serializeToken etag_of now ctx b
         = (Return r, b) /\ status r = 403 /\
       onRequestDelete getTokens verifyToken serializeToken ctx b
         = (Return r', b) /\ status r' = 403).
Proof.
  intros getTokens verifyToken serializeToken etag_of now ctx b Hp.
  split; [apply get_bad_path, Hp|]. split.
  - intros a i Ha Hi. split; [eapply delete_bad_path; eassumption|].
    destruct (declares_json ctx) eqn:Hj.
    + eexists. split; [eapply put_bad_path; eassumption | reflexivity].
    + eexists. split; [eapply put_expected_json; eassumption | reflexivity].
  - intros Hmissing.
    destruct (truthy (accessToken (getTokens (request ctx)))) as [a|] eqn:Ha.
    + destruct Hmissing as [Hm | Hi]; [discriminate Hm|].
      eexists _, _. split; [eapply put_missing_id_token; eassumption|].
      split; [reflexivity|].
      split; [eapply delete_missing_id_token; eassumption | reflexivity].
    + eexists _, _. split; [apply put_missing_access_token; assumption|].
      split; [reflexivity|].
      split; [apply delete_missing_access_token; assumption | reflexivity].
Qed.

Lemma bad_key_is_bad_request_past_the_cookies_witness :
  isArrayOfLength2
    (user_id (Examples.context (Examples.json_request "alice.access" "alice.id")
                ["alice"; "chats"; "new"])) = false /\
  Examples.GET
    (Examples.context (Examples.json_request "alice.access" "alice.id")
       ["alice"; "chats"; "new"])
    (Examples.bucket_with "alice" 0 1)
  = (Return (errorResponse 400 bad_path), Examples.bucket_with "alice" 0 1) /\
  Examples.DELETE
    (Examples.context (Examples.json_request "alice.access" "alice.id")
       ["alice"; "chats"; "new"])
    (Examples.bucket_with "alice" 0 1)
  = (Return (errorResponse 400 bad_path), Examples.bucket_with "alice" 0 1).
Proof.
  split; [reflexivity|].
  destruct (bad_key_is_bad_request_past_the_cookies
              Codec.getTokens (Codec.verifyToken Examples.issued Examples.clock)
              Examples.serializeToken Examples.etag_of Examples.clock
              (Examples.context (Examples.json_request "alice.access" "alice.id")
                 ["alice"; "chats"; "new"])
              (Examples.bucket_with "alice" 0 1) eq_refl) as [Hget [Hboth _]].
  split; [exact Hget|].
  destruct (Hboth "alice.access" "alice.id" eq_refl eq_refl) as [Hdel _].
  exact Hdel.
Defined.

(** C8: [onRequestGet] reads neither the request nor the secrets: its answer
    depends on the key and the bucket only, it sets no cookie and it leaves
    the bucket as it is.  For a two-segment key it answers 500 when the store
    fails, 404 when no object is stored under the key, and otherwise 200 with
    the stored body, the stored content type and the ETag of the object. *)
Theorem get_is_public_and_reads_the_stored_object :
  forall (ctx : EventContext) (b : R2Bucket) (owner id : string),
    user_id ctx = PArray [owner; id] ->
    (forall ctx', user_id ctx' = user_id ctx -> onRequestGet ctx' b = onRequestGet ctx b) /\
    (forall r b', onRequestGet ctx b = (Return r, b') ->
                  getSetCookie (headers r) = [] /\ b' = b) /\
    (forall e, fault b OpGet = Some e ->
               onRequestGet ctx b
               = (Return (errorResponse 500 ("Unable to get chat: " +:+ e)), b)) /\
    (fault b OpGet = None -> objects b !! (owner +:+ "/" +:+ id) = None ->
     onRequestGet ctx b
     = (Return (errorResponse 404 ((owner +:+ "/" +:+ id) +:+ " not found")), b)) /\
    (forall o, fault b OpGet = None -> objects b !! (owner +:+ "/" +:+ id) = Some o ->
               exists r,
                 onRequestGet ctx b = (Return r, b) /\
                 status r = 200 /\
                 body r = Some (obj_body o) /\
                 headers_get "content-type" (headers r) = contentType (httpMetadata o) /\
                 headers_get "etag" (headers r) = Some (httpEtag o)).
Proof.
  intros ctx b owner id Hpath.
  assert (Hp : isArrayOfLength2 (user_id ctx) = true) by (rewrite Hpath; reflexivity).
  assert (Hk : join "/" (segments_of (user_id ctx)) = owner +:+ "/" +:+ id)
    by (rewrite Hpath; reflexivity).
  split; [|split; [|split; [|split]]].
  - intros ctx' Heq. unfold onRequestGet. rewrite Heq. reflexivity.
  - intros r b' Hget. split; [eapply get_sets_no_cookie; eassumption|].
    destruct (get_returns ctx b) as [r' Hr']. congruence.
  - intros e Hf. apply get_store_fails; assumption.
  - intros Hf Ho. rewrite <- Hk in *. apply get_not_found; assumption.
  - intros o Hf Ho. rewrite <- Hk in Ho.
    eexists. split; [apply get_found; eassumption|]. simpl.
    split; [reflexivity|]. split; [reflexivity|]. split.
    + rewrite headers_get_set_ne by reflexivity.
      apply content_type_of_writeHttpMetadata.
    + apply headers_get_set_eq.
Qed.

Lemma get_is_public_and_reads_the_stored_object_witness :
  user_id (Examples.context Examples.anonymous_request ["alice"; "chat0"])
    = PArray ["alice"; "chat0"] /\
  exists r,
    Examples.GET (Examples.context Examples.anonymous_request ["alice"; "chat0"])
      (Examples.bucket_with "alice" 0 1)
    = (Return r, Examples.bucket_with "alice" 0 1) /\
    status r = 200 /\
    body r = Some "{}" /\
    headers_get "etag" (headers r) = Some "etag-2".
Proof.
  split; [reflexivity|].
  destruct (get_is_public_and_reads_the_stored_object
              (Examples.context Examples.anonymous_request ["alice"; "chat0"])
              (Examples.bucket_with "alice" 0 1) "alice" "chat0" eq_refl)
    as (_ & _ & _ & _ & Hfound).
  destruct (Hfound (snd (Examples.share "alice" Examples.recently 0)))
    as (r & Hget & Hs & Hb & _ & He).
  - reflexivity.
  - vm_compute. reflexivity.
  - exists r. repeat split; assumption.
Defined.

(** C9: a [DELETE] that passes the cookie, path, subject and role checks, on
    a store that does not fail, and whose two cookies are serialized into
    header values, is answered 200 with the message "Chat deleted
    successfully" when no object is stored under the key, and the bucket is
    then as it was.  The delete is issued without a look at the bucket:
    whatever the bucket holds, the answer is that same response and the bucket
    is left without the key; and when the store fails the delete, the answer
    is 500 whether or not an object was there. *)
Theorem delete_of_an_absent_object_succeeds :
  forall (getTokens : Request -> Tokens)
         (verifyToken : string -> string -> Outcome (option JwtPayload))
         (serializeToken : string -> string -> Outcome string)
         (ctx : EventContext) (b : R2Bucket) (a i owner id : string) (p : JwtPayload)
         (access_cookie id_cookie : string) (hs : Headers),
    truthy (accessToken (getTokens (request ctx))) = Some a ->
    truthy (idToken (getTokens (request ctx))) = Some i ->
    user_id ctx = PArray [owner; id] ->
    verifyToken a (JWT_SECRET (env ctx)) = Val (Some p) ->
    sub p = Some owner ->
    role p = Some "api" ->
    serializeToken "access_token" a = Val access_cookie ->
    serializeToken "id_token" i = Val id_cookie ->
    Headers_new [json_content_type; ("Set-Cookie", access_cookie); ("Set-Cookie", id_cookie)]
      = Val hs ->
    fault b OpDelete = None ->
    objects b !! (owner +:+ "/" +:+ id) = None ->
    onRequestDelete getTokens verifyToken serializeToken ctx b
    = (Return {| body := Some (JSON_stringify_message "Chat deleted successfully");
                 status := 200; headers := hs |}, b) /\
    (forall present : gmap string R2Object,
       onRequestDelete getTokens verifyToken serializeToken ctx (with_objects b present)
       = (Return {| body := Some (JSON_stringify_message "Chat deleted successfully");
                    status := 200; headers := hs |},
          with_objects b (base.delete (owner +:+ "/" +:+ id) present))) /\
    (forall (failing : R2Bucket) (e : string),
       fault failing OpDelete = Some e ->
       onRequestDelete getTokens verifyToken serializeToken ctx failing
       = (Return (errorResponse 500 ("Unable to share chat: " +:+ e)), failing)).
Proof.
  intros getTokens verifyToken serializeToken ctx b a i owner id p access_cookie id_cookie hs
    Ha Hi Hpath Hv Hs Hr Hca Hci Hh Hf Habsent.
  assert (Hp : isArrayOfLength2 (user_id ctx) = true) by (rewrite Hpath; reflexivity).
  assert (Ho : hd EmptyString (segments_of (user_id ctx)) = owner)
    by (rewrite Hpath; reflexivity).
  assert (Hk : join "/" (segments_of (user_id ctx)) = owner +:+ "/" +:+ id)
    by (rewrite Hpath; reflexivity).
  assert (Hsub : sub p = Some (hd EmptyString (segments_of (user_id ctx))))
    by congruence.
  split; [|split].
  - rewrite (delete_goes_through getTokens verifyToken serializeToken ctx b a i p
               access_cookie id_cookie hs) by assumption.
    rewrite Hk, delete_id by exact Habsent. destruct b; reflexivity.
  - intros present.
    rewrite (delete_goes_through getTokens verifyToken serializeToken ctx
               (with_objects b present) a i p access_cookie id_cookie hs) by assumption.
    rewrite Hk. reflexivity.
  - intros failing e Hfail.
    rewrite (delete_authorized getTokens verifyToken serializeToken ctx failing a i p)
      by assumption.
    rewrite Hfail. reflexivity.
Qed.

Lemma delete_of_an_absent_object_succeeds_witness :
  objects (Examples.bucket_with "alice" 0 1) !! "alice/never-shared" = None /\
  Examples.DELETE
    (Examples.context (Examples.json_request "alice.access" "alice.id")
       ["alice"; "never-shared"])
    (Examples.bucket_with "alice" 0 1)
  = (Return (Share.success Codec.serializeToken "Chat deleted successfully"
               "alice.access" "alice.id"),
     Examples.bucket_with "alice" 0 1) /\
  is_Some (objects
             (with_objects (Examples.bucket_with "alice" 0 1)
                (<["alice/never-shared" := snd (Examples.share "alice" Examples.long_ago 7)]>
                   (objects (Examples.bucket_with "alice" 0 1))))
           !! "alice/never-shared") /\
  Examples.DELETE
    (Examples.context (Examples.json_request "alice.access" "alice.id")
       ["alice"; "never-shared"])
    (with_objects (Examples.bucket_with "alice" 0 1)
       (<["alice/never-shared" := snd (Examples.share "alice" Examples.long_ago 7)]>
          (objects (Examples.bucket_with "alice" 0 1))))
  = (Return (Share.success Codec.serializeToken "Chat deleted successfully"
               "alice.access" "alice.id"),
     Examples.bucket_with "alice" 0 1).
Proof.
  assert (Habsent : objects (Examples.bucket_with "alice" 0 1) !! "alice/never-shared" = None)
    by (vm_compute; reflexivity).
  destruct (delete_of_an_absent_object_succeeds
              Codec.getTokens (Codec.verifyToken Examples.issued Examples.clock)
              Examples.serializeToken
              (Examples.context (Examples.json_request "alice.access" "alice.id")
                 ["alice"; "never-shared"])
              (Examples.bucket_with "alice" 0 1)
              "alice.access" "alice.id" "alice" "never-shared"
              (Examples.api_payload "alice" (Examples.clock + 1000))
              (Codec.serializeToken "access_token" "alice.access")
              (Codec.serializeToken "id_token" "alice.id")
              (headers (Share.success Codec.serializeToken "Chat deleted successfully"
                          "alice.access" "alice.id"))
              eq_refl eq_refl eq_refl eq_refl eq_refl eq_refl eq_refl eq_refl
              ltac:(vm_compute; reflexivity) eq_refl Habsent)
    as (Hdel & Hany & _).
  split; [exact Habsent|]. split; [exact Hdel|].
  split; [unfold with_objects; cbn [objects]; rewrite lookup_insert_eq; eauto|].
  unfold Examples.DELETE. rewrite Hany.
  unfold with_objects. cbn [objects fault].
  rewrite delete_insert_id by exact Habsent. reflexivity.
Defined.

(** C10: a [PUT] or a [DELETE] that passes every check, on a store that does
    not fail, and whose two cookies are serialized into header values, is
    answered 200; and on every [PUT] and [DELETE] answered 200 the response
    has exactly two [Set-Cookie] headers, which are [serializeToken] applied
    to the access token and to the ID token that [getTokens] read from the
    request, as they were received, each with the whitespace at its ends
    removed as [Headers] does: the handlers make no new token. *)
Theorem success_sets_the_cookies_of_the_request :
  forall (getTokens : Request -> Tokens)
         (verifyToken : string -> string -> Outcome (option JwtPayload))
         (serializeToken : string -> string -> Outcome string)
         (etag_of : string -> string) (now : Z) (ctx : EventContext),
    (forall (b b' : R2Bucket) (r : Response),
       onRequestPut getTokens verifyToken serializeToken etag_of now ctx b = (Return r, b') \/
       onRequestDelete getTokens verifyToken serializeToken ctx b = (Return r, b') ->
       status r = 200 ->
       exists a i access_cookie id_cookie,
         accessToken (getTokens (request ctx)) = Some a /\
         idToken (getTokens (request ctx)) = Some i /\
         serializeToken "access_token" a = Val access_cookie /\
         serializeToken "id_token" i = Val id_cookie /\
         getSetCookie (headers r)
         = [normalize_value access_cookie; normalize_value id_cookie]) /\
    (forall (b : R2Bucket) (a i owner id : string) (p : JwtPayload)
            (access_cookie id_cookie : string) (hs : Headers),
       truthy (accessToken (getTokens (request ctx))) = Some a ->
       truthy (idToken (getTokens (request ctx))) = Some i ->
       user_id ctx = PArray [owner; id] ->
       verifyToken a (JWT_SECRET (env ctx)) = Val (Some p) ->
       sub p = Some owner ->
       role p = Some "api" ->
       serializeToken "access_token" a = Val access_cookie ->
       serializeToken "id_token" i = Val id_cookie ->
       Headers_new [json_content_type; ("Set-Cookie", access_cookie);
                    ("Set-Cookie", id_cookie)] = Val hs ->
       (fault b OpDelete = None ->
        exists r b',
          onRequestDelete getTokens verifyToken serializeToken ctx b = (Return r, b') /\
          status r = 200 /\
          getSetCookie (headers r)
          = [normalize_value access_cookie; normalize_value id_cookie]) /\
       (declares_json ctx = true ->
        fault b OpList = None ->
        (length (listing b (owner +:+ "/")) <= 500)%nat ->
        (length (recent now (listing b (owner +:+ "/"))) <= 10)%nat ->
        fault b OpPut = None ->
        exists r b',
          onRequestPut getTokens verifyToken serializeToken etag_of now ctx b
          = (Return r, b') /\
          status r = 200 /\
          getSetCookie (headers r)
          = [normalize_value access_cookie; normalize_value id_cookie])).
Proof.
  intros getTokens verifyToken serializeToken etag_of now ctx. split.
  - intros b b' r [Hput | Hdel] Hok.
    + destruct (put_success_inv _ _ _ _ _ _ _ _ _ Hput (or_introl Hok))
        as (a & i & p & Ha & Hi & _ & _ & _ & _ & _ & _ & _ & Hbuilt).
      destruct (Hbuilt Hok) as (ca & ci & hs & Hca & Hci & Hh & ->).
      exists a, i, ca, ci. repeat split; auto using truthy_Some.
      apply cookie_headers_cookies. exact Hh.
    + destruct (delete_success_inv _ _ _ _ _ _ _ Hdel (or_introl Hok))
        as (a & i & p & Ha & Hi & _ & _ & _ & _ & Hbuilt).
      destruct (Hbuilt Hok) as (ca & ci & hs & Hca & Hci & Hh & ->).
      exists a, i, ca, ci. repeat split; auto using truthy_Some.
      apply cookie_headers_cookies. exact Hh.
  - intros b a i owner id p access_cookie id_cookie hs
      Ha Hi Hpath Hv Hs Hr Hca Hci Hh.
    assert (Hp : isArrayOfLength2 (user_id ctx) = true) by (rewrite Hpath; reflexivity).
    assert (Ho : hd EmptyString (segments_of (user_id ctx)) = owner)
      by (rewrite Hpath; reflexivity).
    assert (Hsub : sub p = Some (hd EmptyString (segments_of (user_id ctx))))
      by congruence.
    split.
    + intros Hf. eexists _, _. split.
      * eapply delete_goes_through; eassumption.
      * split; [reflexivity|]. apply cookie_headers_cookies. exact Hh.
    + intros Hj Hl Hfew Hrecent Hf. rewrite <- Ho in Hfew, Hrecent.
      eexists _, _. split.
      * eapply put_goes_through; eassumption.
      * split; [reflexivity|]. apply cookie_headers_cookies. exact Hh.
Qed.

Lemma success_sets_the_cookies_of_the_request_witness :
  (exists r b',
     Examples.DELETE
       (Examples.context (Examples.json_request "alice.access" "alice.id")
          ["alice"; "chat0"])
       (Examples.bucket_with "alice" 3 1) = (Return r, b') /\
     status r = 200 /\
     getSetCookie (headers r)
     = [Codec.serializeToken "access_token" "alice.access";
        Codec.serializeToken "id_token" "alice.id"]) /\
  (exists r b',
     Examples.PUT
       (Examples.context (Examples.json_request "alice.access" "alice.id")
          ["alice"; "chat0"])
       (Examples.bucket_with "alice" 3 1) = (Return r, b') /\
     status r = 200 /\
     getSetCookie (headers r)
     = [Codec.serializeToken "access_token" "alice.access";
        Codec.serializeToken "id_token" "alice.id"]) /\
  (exists a i access_cookie id_cookie,
     accessToken (Codec.getTokens (Examples.json_request "alice.access" "alice.id"))
       = Some a /\
     idToken (Codec.getTokens (Examples.json_request "alice.access" "alice.id"))
       = Some i /\
     Examples.serializeToken "access_token" a = Val access_cookie /\
     Examples.serializeToken "id_token" i = Val id_cookie /\
     getSetCookie
       (headers (Share.success Codec.serializeToken "Chat shared successfully"
                   "alice.access" "alice.id"))
     = [normalize_value access_cookie; normalize_value id_cookie]).
Proof.
  destruct (success_sets_the_cookies_of_the_request
              Codec.getTokens (Codec.verifyToken Examples.issued Examples.clock)
              Examples.serializeToken Examples.etag_of Examples.clock
              (Examples.context (Examples.json_request "alice.access" "alice.id")
                 ["alice"; "chat0"])) as [Hsets Hgoes].
  assert (Hput200 :
    Examples.PUT
      (Examples.context (Examples.json_request "alice.access" "alice.id")
         ["alice"; "chat0"])
      (Examples.bucket_with "alice" 3 1)
    = (Return (Share.success Codec.serializeToken "Chat shared successfully"
                 "alice.access" "alice.id"),
       snd (Examples.PUT
              (Examples.context (Examples.json_request "alice.access" "alice.id")
                 ["alice"; "chat0"])
              (Examples.bucket_with "alice" 3 1))))
    by (vm_compute; reflexivity).
  pose proof (Hsets _ _ _ (or_introl Hput200) eq_refl) as Hfrom.
  destruct (Hgoes (Examples.bucket_with "alice" 3 1)
              "alice.access" "alice.id" "alice" "chat0"
              (Examples.api_payload "alice" (Examples.clock + 1000))
              (Codec.serializeToken "access_token" "alice.access")
              (Codec.serializeToken "id_token" "alice.id")
              (headers (Share.success Codec.serializeToken "Chat deleted successfully"
                          "alice.access" "alice.id"))
              eq_refl eq_refl eq_refl eq_refl eq_refl eq_refl eq_refl eq_refl
              ltac:(vm_compute; reflexivity)) as [Hdel Hput].
  split; [|split].
  - apply Hdel. reflexivity.
  - apply Hput; [reflexivity | reflexivity | vm_compute; lia | vm_compute; lia | reflexivity].
  - exact Hfrom.
Defined.

(** ** The claims about the login function *)

(** C6: for every input, whether the code is present or absent and whatever
    the exchange, the profile fetch, the creation of the tokens and the URL
    parser give, [handleLogin] returns a response of status 302 with a
    [Location] header and a [null] body. *)
Theorem handleLogin_always_redirects :
  forall (buildUrl : string -> list (string * string) -> string)
         (requestAccessToken : string -> string -> string -> Outcome string)
         (requestUserInfo : string -> Outcome Login.User)
         (createToken : string -> Login.Claims -> string -> Outcome string)
         (serializeToken : string -> string -> string)
         (URL_href : string -> string -> Outcome string)
         (code chatId : option string) (CLIENT_ID CLIENT_SECRET JWT_SECRET : string)
         (s : unit),
  exists r,
    Login.handleLogin buildUrl requestAccessToken requestUserInfo createToken
      serializeToken URL_href code chatId CLIENT_ID CLIENT_SECRET JWT_SECRET s
    = (Return r, s) /\
    status r = 302 /\
    body r = None /\
    exists url, headers_get "Location" (headers r) = Some url.
Proof.
  intros. handler_unfold.
  handler_cases; eexists; (split; [reflexivity|]); simpl;
    (split; [reflexivity|]); (split; [reflexivity|]); eexists; reflexivity.
Qed.

(** C7: when the exchange of the code, the fetch of the profile or the
    creation of one of the tokens fails, [handleLogin] returns the redirect
    (302) to [https://chatcraft.org/?github_login_error], the application root
    with the error indicator, and the response carries no [Set-Cookie]
    header. *)
Theorem failed_login_redirects_without_cookies :
  forall (buildUrl : string -> list (string * string) -> string)
         (requestAccessToken : string -> string -> string -> Outcome string)
         (requestUserInfo : string -> Outcome Login.User)
         (createToken : string -> Login.Claims -> string -> Outcome string)
         (serializeToken : string -> string -> string)
         (URL_href : string -> string -> Outcome string)
         (code chatId : option string) (c CLIENT_ID CLIENT_SECRET JWT_SECRET : string)
         (s : unit),
    truthy code = Some c ->
    Login.login_failure requestAccessToken requestUserInfo createToken
      c CLIENT_ID CLIENT_SECRET JWT_SECRET ->
    exists r,
      Login.handleLogin buildUrl requestAccessToken requestUserInfo createToken
        serializeToken URL_href code chatId CLIENT_ID CLIENT_SECRET JWT_SECRET s
      = (Return r, s) /\
      status r = 302 /\
      headers_get "Location" (headers r) = Some "https://chatcraft.org/?github_login_error" /\
      getSetCookie (headers r) = [] /\
      body r = None.
Proof.
  intros buildUrl requestAccessToken requestUserInfo createToken serializeToken URL_href
    code chatId c CLIENT_ID CLIENT_SECRET JWT_SECRET s Hcode Hfail.
  exists (Response_redirect Login.login_error_url 302).
  split; [|repeat split].
  handler_unfold. rewrite Hcode.
  induction Hfail as [e He | gh e Hgh He | gh user e Hgh Hu He
                     | gh user idToken e Hgh Hu Hid He].
  - rewrite He. reflexivity.
  - rewrite Hgh. simpl. rewrite He. reflexivity.
  - rewrite Hgh. simpl. rewrite Hu. simpl. rewrite He. reflexivity.
  - rewrite Hgh. simpl. rewrite Hu. simpl. rewrite Hid. simpl. rewrite He. reflexivity.
Qed.

Lemma failed_login_redirects_without_cookies_witness :
  truthy (Some "stale-code") = Some "stale-code" /\
  LoginExamples.requestAccessToken "stale-code" "client-id" "client-secret"
    = Exn "bad_verification_code" /\
  exists r,
    LoginExamples.login (Some "stale-code") (Some "chat42") tt = (Return r, tt) /\
    status r = 302 /\
    headers_get "Location" (headers r) = Some "https://chatcraft.org/?github_login_error" /\
    getSetCookie (headers r) = [] /\
    body r = None.
Proof.
  split; [reflexivity|]. split; [reflexivity|].
  apply (failed_login_redirects_without_cookies
           LoginExamples.buildUrl LoginExamples.requestAccessToken
           LoginExamples.requestUserInfo LoginExamples.createToken
           Codec.serializeToken LoginExamples.URL_href
           (Some "stale-code") (Some "chat42") "stale-code"
           "client-id" "client-secret" "s3cret" tt eq_refl).
  apply (Login.exchange_failed _ _ _ _ _ _ _ "bad_verification_code").
  reflexivity.
Defined.

(** * Further properties of the sharing gateway *)

(** ** How the operations compose *)

(** X1: after a [PUT] answered 200, a [GET] of the same key, by anyone, is
    answered 200 with the bytes of the body that was put and the ETag of those
    bytes and with no other header: [put] is called without options, so that
    the content type of the upload is not stored. *)
Theorem get_after_put_returns_the_body :
  forall (getTokens : Request -> Tokens)
         (verifyToken : string -> string -> Outcome (option JwtPayload))
         (serializeToken : string -> string -> Outcome string)
         (etag_of : string -> string) (now : Z)
         (ctx ctx' : EventContext) (b b' : R2Bucket) (r : Response),
    onRequestPut getTokens verifyToken serializeToken etag_of now ctx b = (Return r, b') ->
    status r = 200 ->
    user_id ctx' = user_id ctx ->
    fault b' OpGet = None ->
    onRequestGet ctx' b'
    = (Return {| body := Some (default EmptyString (req_body (request ctx)));
                 status := 200;
                 headers := [("etag", etag_of (default EmptyString (req_body (request ctx))))] |},
       b').
Proof.
  intros getTokens verifyToken serializeToken etag_of now ctx ctx' b b' r
    Hput Hok Hsame Hget.
  assert (Hstored :
            isArrayOfLength2 (user_id ctx) = true /\
            objects b' !! join "/" (segments_of (user_id ctx))
            = Some (stored etag_of now (join "/" (segments_of (user_id ctx)))
                      (req_body (request ctx)))).
  { clear Hget. handler_unfold. handler_cases.
    split; [|apply lookup_insert_eq].
    match goal with H : negb _ = false |- _ => apply negb_false_iff in H; exact H end. }
  destruct Hstored as [Hp Ho].
  rewrite (get_found ctx' b' _ ltac:(congruence) Hget ltac:(rewrite Hsame; exact Ho)).
  reflexivity.
Qed.

Lemma get_after_put_returns_the_body_witness :
  status (Share.success Codec.serializeToken "Chat shared successfully"
            "alice.access" "alice.id") = 200 /\
  fst (Examples.GET
         (Examples.context Examples.anonymous_request ["alice"; "123"])
         (snd (Examples.PUT
                 (Examples.context (Examples.json_request "alice.access" "alice.id")
                    ["alice"; "123"])
                 (Examples.bucket_with "alice" 2 1))))
  = Return {| body := Some "{}"; status := 200; headers := [("etag", "etag-2")] |}.
Proof.
  split; [reflexivity|]. unfold Examples.GET.
  rewrite (get_after_put_returns_the_body
             Codec.getTokens (Codec.verifyToken Examples.issued Examples.clock)
             Examples.serializeToken Examples.etag_of Examples.clock
             (Examples.context (Examples.json_request "alice.access" "alice.id")
                ["alice"; "123"])
             (Examples.context Examples.anonymous_request ["alice"; "123"])
             (Examples.bucket_with "alice" 2 1)
             (snd (Examples.PUT
                     (Examples.context (Examples.json_request "alice.access" "alice.id")
                        ["alice"; "123"])
                     (Examples.bucket_with "alice" 2 1)))
             (Share.success Codec.serializeToken "Chat shared successfully"
                "alice.access" "alice.id")).
  - reflexivity.
  - vm_compute. reflexivity.
  - reflexivity.
  - reflexivity.
  - reflexivity.
Defined.

(** X2: after a [DELETE] answered 200, a [GET] of the same key is answered 404
    with the key in its message. *)
Theorem get_after_delete_is_not_found :
  forall (getTokens : Request -> Tokens)
         (verifyToken : string -> string -> Outcome (option JwtPayload))
         (serializeToken : string -> string -> Outcome string)
         (ctx ctx' : EventContext) (b b' : R2Bucket) (r : Response),
    onRequestDelete getTokens verifyToken serializeToken ctx b = (Return r, b') ->
    status r = 200 ->
    user_id ctx' = user_id ctx ->
    fault b' OpGet = None ->
    onRequestGet ctx' b'
    = (Return (errorResponse 404 (join "/" (segments_of (user_id ctx)) +:+ " not found")),
       b').
Proof.
  intros getTokens verifyToken serializeToken ctx ctx' b b' r Hdel Hok Hsame Hget.
  assert (Hgone :
            isArrayOfLength2 (user_id ctx) = true /\
            objects b' !! join "/" (segments_of (user_id ctx)) = None).
  { clear Hget. handler_unfold. handler_cases.
    split; [|apply lookup_delete_eq].
    match goal with H : negb _ = false |- _ => apply negb_false_iff in H; exact H end. }
  destruct Hgone as [Hp Ho].
  rewrite <- Hsame.
  apply get_not_found; [congruence | exact Hget | rewrite Hsame; exact Ho].
Qed.

Lemma get_after_delete_is_not_found_witness :
  status (Share.success Codec.serializeToken "Chat deleted successfully"
            "alice.access" "alice.id") = 200 /\
  fst (Examples.GET
         (Examples.context Examples.anonymous_request ["alice"; "chat0"])
         (snd (Examples.DELETE
                 (Examples.context (Examples.json_request "alice.access" "alice.id")
                    ["alice"; "chat0"])
                 (Examples.bucket_with "alice" 0 1))))
  = Return (errorResponse 404 "alice/chat0 not found").
Proof.
  split; [reflexivity|]. unfold Examples.GET.
  rewrite (get_after_delete_is_not_found
             Codec.getTokens (Codec.verifyToken Examples.issued Examples.clock)
             Examples.serializeToken
             (Examples.context (Examples.json_request "alice.access" "alice.id")
                ["alice"; "chat0"])
             (Examples.context Examples.anonymous_request ["alice"; "chat0"])
             (Examples.bucket_with "alice" 0 1)
             (snd (Examples.DELETE
                     (Examples.context (Examples.json_request "alice.access" "alice.id")
                        ["alice"; "chat0"])
                     (Examples.bucket_with "alice" 0 1)))
             (Share.success Codec.serializeToken "Chat deleted successfully"
                "alice.access" "alice.id")).
  - reflexivity.
  - vm_compute. reflexivity.
  - reflexivity.
  - reflexivity.
  - reflexivity.
Defined.

(** X3: a [PUT] answered 200 leaves exactly one object under the key, dated
    at the time of the request: over an existing share the number of stored
    objects stays the same, and the share counts as an upload of the last day
    again; on a new key the number grows by one.  The failures of the store
    are not touched. *)
Theorem put_replaces_or_adds_one_object :
  forall (getTokens : Request -> Tokens)
         (verifyToken : string -> string -> Outcome (option JwtPayload))
         (serializeToken : string -> string -> Outcome string)
         (etag_of : string -> string) (now : Z)
         (ctx : EventContext) (b b' : R2Bucket) (r : Response),
    onRequestPut getTokens verifyToken serializeToken etag_of now ctx b = (Return r, b') ->
    status r = 200 ->
    (exists o,
       objects b' !! join "/" (segments_of (user_id ctx)) = Some o /\
       uploaded o = now /\
       recent now [o] = [o]) /\
    size (objects b')
    = match objects b !! join "/" (segments_of (user_id ctx)) with
      | Some _ => size (objects b)
      | None => S (size (objects b))
      end /\
    fault b' = fault b.
Proof.
  intros getTokens verifyToken serializeToken etag_of now ctx b b' r Hput Hok.
  assert (Hb' : b' = with_objects b
                       (<[join "/" (segments_of (user_id ctx))
                          := stored etag_of now (join "/" (segments_of (user_id ctx)))
                               (req_body (request ctx))]> (objects b))).
  { handler_unfold. handler_cases. reflexivity. }
  subst b'. simpl. split; [|split; [|reflexivity]].
  - eexists. split; [apply lookup_insert_eq|]. split; [reflexivity|].
    unfold recent. simpl. rewrite Z.sub_diag. reflexivity.
  - destruct (objects b !! join "/" (segments_of (user_id ctx))) eqn:Hold.
    + eapply map_size_insert_Some; eauto.
    + apply map_size_insert_None. exact Hold.
Qed.

Lemma put_replaces_or_adds_one_object_witness :
  status (Share.success Codec.serializeToken "Chat shared successfully"
            "alice.access" "alice.id") = 200 /\
  size (objects
          (snd (Examples.PUT
                  (Examples.context (Examples.json_request "alice.access" "alice.id")
                     ["alice"; "chat0"])
                  (Examples.bucket_with "alice" 2 1))))
  = size (objects (Examples.bucket_with "alice" 2 1)).
Proof.
  split; [reflexivity|].
  destruct (put_replaces_or_adds_one_object
              Codec.getTokens (Codec.verifyToken Examples.issued Examples.clock)
              Examples.serializeToken Examples.etag_of Examples.clock
              (Examples.context (Examples.json_request "alice.access" "alice.id")
                 ["alice"; "chat0"])
              (Examples.bucket_with "alice" 2 1)
              (snd (Examples.PUT
                      (Examples.context (Examples.json_request "alice.access" "alice.id")
                         ["alice"; "chat0"])
                      (Examples.bucket_with "alice" 2 1)))
              (Share.success Codec.serializeToken "Chat shared successfully"
                 "alice.access" "alice.id"))
    as (_ & Hsize & _).
  - vm_compute. reflexivity.
  - reflexivity.
  - rewrite Hsize. vm_compute. reflexivity.
Defined.

(** X4: [DELETE] is idempotent: a [DELETE] answered 200 that is sent again
    gets the same answer and leaves the bucket as the first one left it. *)
Theorem delete_twice_is_delete_once :
  forall (getTokens : Request -> Tokens)
         (verifyToken : string -> string -> Outcome (option JwtPayload))
         (serializeToken : string -> string -> Outcome string)
         (ctx : EventContext) (b b' : R2Bucket) (r : Response),
    onRequestDelete getTokens verifyToken serializeToken ctx b = (Return r, b') ->
    status r = 200 ->
    onRequestDelete getTokens verifyToken serializeToken ctx b' = (Return r, b').
Proof.
  intros getTokens verifyToken serializeToken ctx b b' r Hdel Hok.
  destruct (delete_success_inv _ _ _ _ _ _ _ Hdel (or_introl Hok))
    as (a & i & p & Ha & Hi & Hp & Hv & Hs & Hr & Hbuilt).
  destruct (Hbuilt Hok) as (ca & ci & hs & Hca & Hci & Hh & ->).
  rewrite (delete_authorized getTokens verifyToken serializeToken ctx b a i p)
    in Hdel by assumption.
  destruct (fault b OpDelete) eqn:Hf; [discriminate|].
  unfold try_catch in Hdel.
  rewrite (respond_built serializeToken _ _ _ _ _ _ _ Hca Hci Hh) in Hdel.
  inversion Hdel as [Hb'].
  rewrite (delete_goes_through getTokens verifyToken serializeToken ctx
             (with_objects b (base.delete (join "/" (segments_of (user_id ctx))) (objects b)))
             a i p ca ci hs) by assumption.
  unfold with_objects. simpl. rewrite delete_delete_eq. reflexivity.
Qed.

Lemma delete_twice_is_delete_once_witness :
  status (Share.success Codec.serializeToken "Chat deleted successfully"
            "alice.access" "alice.id") = 200 /\
  Examples.DELETE
    (Examples.context (Examples.json_request "alice.access" "alice.id") ["alice"; "chat0"])
    (snd (Examples.DELETE
            (Examples.context (Examples.json_request "alice.access" "alice.id")
               ["alice"; "chat0"])
            (Examples.bucket_with "alice" 0 1)))
  = (Return (Share.success Codec.serializeToken "Chat deleted successfully"
               "alice.access" "alice.id"),
     snd (Examples.DELETE
            (Examples.context (Examples.json_request "alice.access" "alice.id")
               ["alice"; "chat0"])
            (Examples.bucket_with "alice" 0 1))).
Proof.
  split; [reflexivity|].
  apply (delete_twice_is_delete_once
           Codec.getTokens (Codec.verifyToken Examples.issued Examples.clock)
           Examples.serializeToken
           (Examples.context (Examples.json_request "alice.access" "alice.id")
              ["alice"; "chat0"])
           (Examples.bucket_with "alice" 0 1)).
  - vm_compute. reflexivity.
  - reflexivity.
Defined.

(** ** What a rejected request leaves behind *)

(** X5: a [PUT] or a [DELETE] that is not answered 200 is answered with
    [errorResponse] of a status among 400, 403, 429 and 500.  With 400, 403
    or 429 the bucket is exactly as it was: the checks all come before the
    one write.  A 500 is the answer to a store that failed, which wrote
    nothing, or to a response that could not be built, which comes after the
    write: so the bucket is as it was whenever the two cookies of every pair
    of tokens are serialized into header values. *)
Theorem rejection_leaves_the_bucket :
  forall (getTokens : Request -> Tokens)
         (verifyToken : string -> string -> Outcome (option JwtPayload))
         (serializeToken : string -> string -> Outcome string)
         (etag_of : string -> string) (now : Z)
         (ctx : EventContext) (b b' : R2Bucket) (r : Response),
    onRequestPut getTokens verifyToken serializeToken etag_of now ctx b = (Return r, b') \/
    onRequestDelete getTokens verifyToken serializeToken ctx b = (Return r, b') ->
    status r <> 200 ->
    (exists code message,
       r = errorResponse code message /\
       (code = 400 \/ code = 403 \/ code = 429 \/ code = 500) /\
       (code <> 500 -> b' = b)) /\
    ((forall a i,
        exists access_cookie id_cookie hs,
          serializeToken "access_token" a = Val access_cookie /\
          serializeToken "id_token" i = Val id_cookie /\
          Headers_new [json_content_type; ("Set-Cookie", access_cookie);
                       ("Set-Cookie", id_cookie)] = Val hs) ->
     b' = b) /\
    (b' <> b ->
     exists e, r = errorResponse 500 ("Unable to share chat: " +:+ e)).
Proof.
  intros getTokens verifyToken serializeToken etag_of now ctx b b' r Hret Hnot.
  split; [|split].
  - eapply not_200_is_an_error; eassumption.
  - intros Hbuilt.
    destruct Hret as [Hput | Hdel]; handler_unfold; handler_cases;
      try reflexivity; try (exfalso; apply Hnot; reflexivity); exfalso;
      match goal with
      | H : serializeToken "access_token" ?a = _,
        H' : serializeToken "id_token" ?i = _ |- _ =>
          destruct (Hbuilt a i) as (? & ? & ? & ? & ? & ?); congruence
      | H : serializeToken "access_token" ?a = _ |- _ =>
          destruct (Hbuilt a EmptyString) as (? & ? & ? & ? & ? & ?); congruence
      end.
  - intros Hchanged. destruct Hret as [Hput | Hdel].
    + destruct (put_bucket _ _ _ _ _ _ _ _ _ Hput) as [-> | (_ & [Hok | He] & _)];
        [contradiction | contradiction | exact He].
    + destruct (delete_bucket _ _ _ _ _ _ _ Hdel) as [-> | (_ & [Hok | He])];
        [contradiction | contradiction | exact He].
Qed.

(** With a serializer that throws, the owner is answered 500 after the write:
    the object of the [PUT] is in the bucket, and the object of the [DELETE]
    is gone. *)
Example unbuilt_response_follows_the_write :
  onRequestPut Codec.getTokens (Codec.verifyToken Examples.issued Examples.clock)
    Examples.rejectingSerializer Examples.etag_of Examples.clock
    (Examples.context (Examples.json_request "alice.access" "alice.id") ["alice"; "new"])
    (Examples.bucket_with "alice" 0 1)
  = (Return (errorResponse 500 "Unable to share chat: argument val is invalid"),
     with_objects (Examples.bucket_with "alice" 0 1)
       (<["alice/new" := stored Examples.etag_of Examples.clock "alice/new"
                           (Some "{}")]>
          (objects (Examples.bucket_with "alice" 0 1)))) /\
  onRequestDelete Codec.getTokens (Codec.verifyToken Examples.issued Examples.clock)
    Examples.rejectingSerializer
    (Examples.context (Examples.json_request "alice.access" "alice.id") ["alice"; "chat0"])
    (Examples.bucket_with "alice" 0 1)
  = (Return (errorResponse 500 "Unable to share chat: argument val is invalid"),
     with_objects (Examples.bucket_with "alice" 0 1)
       (base.delete "alice/chat0" (objects (Examples.bucket_with "alice" 0 1)))) /\
  is_Some (objects (Examples.bucket_with "alice" 0 1) !! "alice/chat0").
Proof.
  split; [reflexivity|]. split; [reflexivity|]. vm_compute. eauto.
Qed.

Lemma rejection_leaves_the_bucket_witness :
  status (errorResponse 403 "Access Token does not match username") <> 200 /\
  Examples.DELETE
    (Examples.context (Examples.json_request "bob.access" "bob.id") ["alice"; "chat0"])
    (Examples.bucket_with "alice" 0 1)
  = (Return (errorResponse 403 "Access Token does not match username"),
     Examples.bucket_with "alice" 0 1) /\
  is_Some (objects (Examples.bucket_with "alice" 0 1) !! "alice/chat0") /\
  onRequestDelete Codec.getTokens (Codec.verifyToken Examples.issued Examples.clock)
    Examples.rejectingSerializer
    (Examples.context (Examples.json_request "alice.access" "alice.id") ["alice"; "chat0"])
    (Examples.bucket_with "alice" 0 1)
  = (Return (errorResponse 500 "Unable to share chat: argument val is invalid"),
     with_objects (Examples.bucket_with "alice" 0 1)
       (base.delete "alice/chat0" (objects (Examples.bucket_with "alice" 0 1)))) /\
  exists e,
    errorResponse 500 "Unable to share chat: argument val is invalid"
    = errorResponse 500 ("Unable to share chat: " +:+ e).
Proof.
  split; [discriminate|].
  assert (Hdel :
    Examples.DELETE
      (Examples.context (Examples.json_request "bob.access" "bob.id") ["alice"; "chat0"])
      (Examples.bucket_with "alice" 0 1)
    = (Return (errorResponse 403 "Access Token does not match username"),
       snd (Examples.DELETE
              (Examples.context (Examples.json_request "bob.access" "bob.id")
                 ["alice"; "chat0"])
              (Examples.bucket_with "alice" 0 1))))
    by (vm_compute; reflexivity).
  destruct (rejection_leaves_the_bucket
              Codec.getTokens (Codec.verifyToken Examples.issued Examples.clock)
              Examples.serializeToken Examples.etag_of Examples.clock
              (Examples.context (Examples.json_request "bob.access" "bob.id")
                 ["alice"; "chat0"])
              (Examples.bucket_with "alice" 0 1)
              (snd (Examples.DELETE
                      (Examples.context (Examples.json_request "bob.access" "bob.id")
                         ["alice"; "chat0"])
                      (Examples.bucket_with "alice" 0 1)))
              (errorResponse 403 "Access Token does not match username")
              (or_intror Hdel) ltac:(discriminate))
    as ((code & message & Hr & _ & Hsame) & _ & _).
  split; [|split; [vm_compute; eauto|]].
  { rewrite Hdel. apply f_equal. apply Hsame.
    inversion Hr. discriminate. }
  assert (Hgone :
    onRequestDelete Codec.getTokens (Codec.verifyToken Examples.issued Examples.clock)
      Examples.rejectingSerializer
      (Examples.context (Examples.json_request "alice.access" "alice.id")
         ["alice"; "chat0"])
      (Examples.bucket_with "alice" 0 1)
    = (Return (errorResponse 500 "Unable to share chat: argument val is invalid"),
       with_objects (Examples.bucket_with "alice" 0 1)
         (base.delete "alice/chat0" (objects (Examples.bucket_with "alice" 0 1)))))
    by reflexivity.
  split; [exact Hgone|].
  destruct (rejection_leaves_the_bucket
              Codec.getTokens (Codec.verifyToken Examples.issued Examples.clock)
              Examples.rejectingSerializer Examples.etag_of Examples.clock
              (Examples.context (Examples.json_request "alice.access" "alice.id")
                 ["alice"; "chat0"])
              (Examples.bucket_with "alice" 0 1)
              (with_objects (Examples.bucket_with "alice" 0 1)
                 (base.delete "alice/chat0" (objects (Examples.bucket_with "alice" 0 1))))
              (errorResponse 500 "Unable to share chat: argument val is invalid")
              (or_intror Hgone) ltac:(discriminate))
    as (_ & _ & Hafter).
  apply Hafter. intros Heq.
  apply (f_equal (fun b => objects b !! "alice/chat0")) in Heq.
  vm_compute in Heq. discriminate Heq.
Defined.

(** ** The quota and the failures of the store *)

(** X6: for a request of the owner that passes the checks on cookies, content
    type, key and token, more than 500 listed objects give 403 ("Exceeded
    total share limit"), however many of them are recent and whether or not
    the key exists already; at most 500 listed objects of which more than 10
    are of the last 24 hours give 429.  Nothing is written in either case. *)
Theorem put_over_the_quota_is_rejected :
  forall (getTokens : Request -> Tokens)
         (verifyToken : string -> string -> Outcome (option JwtPayload))
         (serializeToken : string -> string -> Outcome string)
         (etag_of : string -> string) (now : Z)
         (ctx : EventContext) (b : R2Bucket) (a i owner id : string) (p : JwtPayload),
    truthy (accessToken (getTokens (request ctx))) = Some a ->
    truthy (idToken (getTokens (request ctx))) = Some i ->
    declares_json ctx = true ->
    user_id ctx = PArray [owner; id] ->
    verifyToken a (JWT_SECRET (env ctx)) = Val (Some p) ->
    sub p = Some owner ->
    role p = Some "api" ->
    fault b OpList = None ->
    ((500 < length (listing b (owner +:+ "/")))%nat ->
     onRequestPut getTokens verifyToken serializeToken etag_of now ctx b
     = (Return (errorResponse 403 "Exceeded total share limit"), b)) /\
    ((length (listing b (owner +:+ "/")) <= 500)%nat ->
     (10 < length (recent now (listing b (owner +:+ "/"))))%nat ->
     onRequestPut getTokens verifyToken serializeToken etag_of now ctx b
     = (Return (errorResponse 429 "Too many shares in a 24-hour period"), b)).
Proof.
  intros getTokens verifyToken serializeToken etag_of now ctx b a i owner id p
    Ha Hi Hj Hpath Hv Hs Hr Hl.
  assert (Hp : isArrayOfLength2 (user_id ctx) = true) by (rewrite Hpath; reflexivity).
  assert (Ho : hd EmptyString (segments_of (user_id ctx)) = owner)
    by (rewrite Hpath; reflexivity).
  split.
  - intros Hmany. eapply put_over_total_limit; eauto; congruence.
  - intros Hfew Hrecent. eapply put_over_daily_limit; eauto; congruence.
Qed.

Lemma put_over_the_quota_is_rejected_witness :
  (500 < length (listing (Examples.bucket_with "alice" 490 11) "alice/"))%nat /\
  Examples.PUT
    (Examples.context (Examples.json_request "alice.access" "alice.id")
       ["alice"; "chat0"])
    (Examples.bucket_with "alice" 490 11)
  = (Return (errorResponse 403 "Exceeded total share limit"),
     Examples.bucket_with "alice" 490 11).
Proof.
  assert (Hmany : (500 < length (listing (Examples.bucket_with "alice" 490 11) "alice/"))%nat)
    by (vm_compute; lia).
  split; [exact Hmany|].
  apply (put_over_the_quota_is_rejected
           Codec.getTokens (Codec.verifyToken Examples.issued Examples.clock)
           Examples.serializeToken Examples.etag_of Examples.clock
           (Examples.context (Examples.json_request "alice.access" "alice.id")
              ["alice"; "chat0"])
           (Examples.bucket_with "alice" 490 11)
           "alice.access" "alice.id" "alice" "chat0"
           (Examples.api_payload "alice" (Examples.clock + 1000))
           eq_refl eq_refl eq_refl eq_refl eq_refl eq_refl eq_refl eq_refl).
  exact Hmany.
Defined.

Section StoreFailures.

Variable getTokens : Request -> Tokens.
Variable verifyToken : string -> string -> Outcome (option JwtPayload).
Variable serializeToken : string -> string -> Outcome string.
Variable etag_of : string -> string.
Variable now : Z.

(** A listing that fails is caught by the first [try] of [onRequestPut]. *)
Lemma put_listing_fails ctx b a i p e :
  truthy (accessToken (getTokens (request ctx))) = Some a ->
  truthy (idToken (getTokens (request ctx))) = Some i ->
  declares_json ctx = true ->
  isArrayOfLength2 (user_id ctx) = true ->
  verifyToken a (JWT_SECRET (env ctx)) = Val (Some p) ->
  sub p = Some (hd EmptyString (segments_of (user_id ctx))) ->
  role p = Some "api" ->
  fault b OpList = Some e ->
  onRequestPut getTokens verifyToken serializeToken etag_of now ctx b
  = (Return (errorResponse 400 e), b).
Proof.
  intros Ha Hi Hj Hp Hv Hs Hr Hl. handler_unfold.
  rewrite Ha, Hi, Hj, Hp, Hv. simpl.
  rewrite <- Hs, Hr. unfold strict_eq. rewrite !bool_decide_eq_true_2 by reflexivity.
  simpl. rewrite Hl. reflexivity.
Qed.

End StoreFailures.

(** X7: how a failing store is reported to the owner.  A listing that fails
    makes [PUT] answer 400 with the message of the store, since the listing is
    inside the [try] of the token checks; a write that fails makes it answer
    500 ("Unable to share chat: ..."); a delete that fails makes [DELETE]
    answer 500 with the same "Unable to share chat: ..." prefix.  The bucket
    is unchanged each time. *)
Theorem store_failures_are_reported :
  forall (getTokens : Request -> Tokens)
         (verifyToken : string -> string -> Outcome (option JwtPayload))
         (serializeToken : string -> string -> Outcome string)
         (etag_of : string -> string) (now : Z)
         (ctx : EventContext) (b : R2Bucket) (a i owner id : string) (p : JwtPayload),
    truthy (accessToken (getTokens (request ctx))) = Some a ->
    truthy (idToken (getTokens (request ctx))) = Some i ->
    declares_json ctx = true ->
    user_id ctx = PArray [owner; id] ->
    verifyToken a (JWT_SECRET (env ctx)) = Val (Some p) ->
    sub p = Some owner ->
    role p = Some "api" ->
    (forall e, fault b OpList = Some e ->
       onRequestPut getTokens verifyToken serializeToken etag_of now ctx b
       = (Return (errorResponse 400 e), b)) /\
    (forall e, fault b OpList = None ->
       (length (listing b (owner +:+ "/")) <= 500)%nat ->
       (length (recent now (listing b (owner +:+ "/"))) <= 10)%nat ->
       fault b OpPut = Some e ->
       onRequestPut getTokens verifyToken serializeToken etag_of now ctx b
       = (Return (errorResponse 500 ("Unable to share chat: " +:+ e)), b)) /\
    (forall e, fault b OpDelete = Some e ->
       onRequestDelete getTokens verifyToken serializeToken ctx b
       = (Return (errorResponse 500 ("Unable to share chat: " +:+ e)), b)).
Proof.
  intros getTokens verifyToken serializeToken etag_of now ctx b a i owner id p
    Ha Hi Hj Hpath Hv Hs Hr.
  assert (Hp : isArrayOfLength2 (user_id ctx) = true) by (rewrite Hpath; reflexivity).
  assert (Ho : hd EmptyString (segments_of (user_id ctx)) = owner)
    by (rewrite Hpath; reflexivity).
  split; [|split].
  - intros e Hl. eapply put_listing_fails; eauto; congruence.
  - intros e Hl Hfew Hrecent Hf. eapply put_store_fails; eauto; congruence.
  - intros e Hf.
    rewrite (delete_authorized getTokens verifyToken serializeToken ctx b a i p)
      by (auto; congruence).
    rewrite Hf. reflexivity.
Qed.

Lemma store_failures_are_reported_witness :
  fault (Examples.failing OpList "R2 is down" (Examples.bucket_with "alice" 0 1)) OpList
    = Some "R2 is down" /\
  Examples.PUT
    (Examples.context (Examples.json_request "alice.access" "alice.id") ["alice"; "new"])
    (Examples.failing OpList "R2 is down" (Examples.bucket_with "alice" 0 1))
  = (Return (errorResponse 400 "R2 is down"),
     Examples.failing OpList "R2 is down" (Examples.bucket_with "alice" 0 1)).
Proof.
  split; [reflexivity|].
  apply (store_failures_are_reported
           Codec.getTokens (Codec.verifyToken Examples.issued Examples.clock)
           Examples.serializeToken Examples.etag_of Examples.clock
           (Examples.context (Examples.json_request "alice.access" "alice.id")
              ["alice"; "new"])
           (Examples.failing OpList "R2 is down" (Examples.bucket_with "alice" 0 1))
           "alice.access" "alice.id" "alice" "new"
           (Examples.api_payload "alice" (Examples.clock + 1000))
           eq_refl eq_refl eq_refl eq_refl eq_refl eq_refl eq_refl).
  reflexivity.
Defined.

(** ** The quota of one owner *)

Section ListingFacts.

Lemma list_filter_Permutation {A} (f : A -> bool) (l k : list A) :
  l ≡ₚ k -> List.filter f l ≡ₚ List.filter f k.
Proof.
  induction 1 as [|x l k _ IH|x y l|l k m _ IH1 _ IH2]; simpl.
  - reflexivity.
  - destruct (f x); [constructor|]; exact IH.
  - destruct (f x), (f y); try reflexivity. apply perm_swap.
  - etransitivity; eassumption.
Qed.

(** The entries under a prefix are those of the map, whatever else it holds. *)
Lemma prefixed_entries_Permutation (prefix : string) (m1 m2 : gmap string R2Object) :
  (forall k, String.prefix prefix k = true -> m1 !! k = m2 !! k) ->
  List.filter (fun kv => String.prefix prefix (fst kv)) (map_to_list m1)
  ≡ₚ List.filter (fun kv => String.prefix prefix (fst kv)) (map_to_list m2).
Proof.
  intros Hagree.
  apply NoDup_Permutation.
  - apply NoDup_ListNoDup, List.NoDup_filter, NoDup_ListNoDup, NoDup_map_to_list.
  - apply NoDup_ListNoDup, List.NoDup_filter, NoDup_ListNoDup, NoDup_map_to_list.
  - intros [k o]. rewrite !list_elem_of_In, !List.filter_In, <- !list_elem_of_In.
    rewrite !elem_of_map_to_list. simpl.
    split; intros [Hk Hp]; (split; [|exact Hp]).
    + rewrite <- (Hagree k Hp). exact Hk.
    + rewrite (Hagree k Hp). exact Hk.
Qed.

(** Two buckets that agree under a prefix have listings of the same length,
    and the same number of recent uploads in them when the listings are short
    of the limit of a listing. *)
Lemma listing_agree (now : Z) (prefix : string) (b1 b2 : R2Bucket) :
  (forall k, String.prefix prefix k = true -> objects b1 !! k = objects b2 !! k) ->
  length (listing b1 prefix) = length (listing b2 prefix) /\
  ((length (listing b1 prefix) <= 500)%nat ->
   length (recent now (listing b1 prefix)) = length (recent now (listing b2 prefix))).
Proof.
  intros Hagree. unfold listing.
  pose proof (prefixed_entries_Permutation prefix _ _ Hagree) as Hperm.
  set (l1 := List.filter _ (map_to_list (objects b1))) in *.
  set (l2 := List.filter _ (map_to_list (objects b2))) in *.
  assert (Hlen : length (List.map snd l1) = length (List.map snd l2))
    by (rewrite !length_map; apply Permutation_length, Hperm).
  split.
  - rewrite !length_take. lia.
  - rewrite length_take. intros Hshort.
    rewrite !take_ge by lia.
    apply Permutation_length. unfold recent.
    apply list_filter_Permutation, Permutation_map, Hperm.
Qed.

End ListingFacts.

(** X8: the quota is per owner.  The answer of [PUT] to a request under
    [owner/] does not depend on what the bucket holds under keys that do not
    start with [owner/]: the shares of other users never count against the
    limits of this one. *)
Theorem quota_is_per_owner :
  forall (getTokens : Request -> Tokens)
         (verifyToken : string -> string -> Outcome (option JwtPayload))
         (serializeToken : string -> string -> Outcome string)
         (etag_of : string -> string) (now : Z)
         (ctx : EventContext) (b1 b2 : R2Bucket) (owner id : string),
    user_id ctx = PArray [owner; id] ->
    (forall op, fault b1 op = fault b2 op) ->
    (forall k, String.prefix (owner +:+ "/") k = true -> objects b1 !! k = objects b2 !! k) ->
    fst (onRequestPut getTokens verifyToken serializeToken etag_of now ctx b1)
    = fst (onRequestPut getTokens verifyToken serializeToken etag_of now ctx b2).
Proof.
  intros getTokens verifyToken serializeToken etag_of now ctx b1 b2 owner id
    Hpath Hfault Hagree.
  destruct (listing_agree now _ _ _ Hagree) as [Hlen Hrecent].
  handler_unfold. rewrite Hpath. simpl.
  destruct (truthy (accessToken _)); [|reflexivity].
  destruct (truthy (idToken _)); [|reflexivity].
  destruct (negb (opt_includes _ _)); [reflexivity|]. simpl.
  destruct (verifyToken _ _) as [[payload|]|]; simpl; try reflexivity.
  destruct (negb (strict_eq _ (sub payload))); [reflexivity|].
  destruct (negb (strict_eq (role payload) _)); [reflexivity|]. simpl.
  rewrite <- (Hfault OpList). destruct (fault b1 OpList); [reflexivity|].
  rewrite <- Hlen.
  destruct (500 <? length (listing b1 (owner +:+ "/")))%nat eqn:Hmany; [reflexivity|].
  apply Nat.ltb_ge in Hmany. unfold recent in Hrecent. rewrite <- (Hrecent Hmany).
  destruct (10 <? _)%nat; [reflexivity|]. simpl.
  rewrite <- (Hfault OpPut). destruct (fault b1 OpPut); [reflexivity|].
  destruct (serializeToken "access_token" _); [|reflexivity].
  destruct (serializeToken "id_token" _); [|reflexivity].
  destruct (Headers_new _); reflexivity.
Qed.

Lemma quota_is_per_owner_witness :
  fst (Examples.PUT
         (Examples.context (Examples.json_request "alice.access" "alice.id")
            ["alice"; "new"])
         (Examples.bucket_with "alice" 0 10))
  = fst (Examples.PUT
           (Examples.context (Examples.json_request "alice.access" "alice.id")
              ["alice"; "new"])
           (with_objects (Examples.bucket_with "alice" 0 10)
              (<["bob/chat0" := snd (Examples.share "bob" Examples.recently 0)]>
                 (objects (Examples.bucket_with "alice" 0 10))))).
Proof.
  apply (quota_is_per_owner
           Codec.getTokens (Codec.verifyToken Examples.issued Examples.clock)
           Examples.serializeToken Examples.etag_of Examples.clock
           (Examples.context (Examples.json_request "alice.access" "alice.id")
              ["alice"; "new"])
           (Examples.bucket_with "alice" 0 10) _ "alice" "new" eq_refl).
  - intros op. reflexivity.
  - intros k Hk. simpl. symmetry. apply lookup_insert_ne.
    intros <-. discriminate Hk.
Defined.

Section ListingBounds.

Variable prefix : string.

Local Abbreviation under m :=
  (List.filter (fun kv : string * R2Object => String.prefix prefix (fst kv)) (map_to_list m)).




End ListingBounds.



(** * Further properties of the login function *)

Section LoginFacts.

Variable buildUrl : string -> list (string * string) -> string.
Variable requestAccessToken : string -> string -> string -> Outcome string.
Variable requestUserInfo : string -> Outcome Login.User.
Variable createToken : string -> Login.Claims -> string -> Outcome string.
Variable serializeToken : string -> string -> string.
Variable URL_href : string -> string -> Outcome string.

Local Abbreviation handleLogin :=
  (Login.handleLogin buildUrl requestAccessToken requestUserInfo createToken
     serializeToken URL_href).

(** Without a code nothing is exchanged: the answer is the redirect to
    GitHub. *)
Lemma handleLogin_without_code code chatId CLIENT_ID CLIENT_SECRET JWT_SECRET s :
  truthy code = None ->
  handleLogin code chatId CLIENT_ID CLIENT_SECRET JWT_SECRET s
  = (Return (Response_redirect
               (buildUrl Login.authorize_url
                  match truthy chatId with
                  | Some chatId => [("client_id", CLIENT_ID); ("state", chatId)]
                  | None => [("client_id", CLIENT_ID)]
                  end) 302), s).
Proof. intros Hcode. handler_unfold. rewrite Hcode. reflexivity. Qed.


End LoginFacts.

(** X10: a request without a code, or with an empty one, is answered by the
    redirect to the authorization page of GitHub, built from the client id
    and, when a chat id came with the request, from that chat id as [state];
    an empty chat id is left out.  The answer sets no cookie and does not
    depend on what the exchange, the profile or the token helpers would
    give. *)
Theorem login_without_code_goes_to_github :
  forall (buildUrl : string -> list (string * string) -> string)
         (requestAccessToken : string -> string -> string -> Outcome string)
         (requestUserInfo : string -> Outcome Login.User)
         (createToken : string -> Login.Claims -> string -> Outcome string)
         (serializeToken : string -> string -> string)
         (URL_href : string -> string -> Outcome string)
         (code chatId : option string) (CLIENT_ID CLIENT_SECRET JWT_SECRET : string)
         (s : unit),
    code = None \/ code = Some EmptyString ->
    exists r,
      Login.handleLogin buildUrl requestAccessToken requestUserInfo createToken
        serializeToken URL_href code chatId CLIENT_ID CLIENT_SECRET JWT_SECRET s
      = (Return r, s) /\
      headers_get "Location" (headers r)
      = Some (buildUrl "https://github.com/login/oauth/authorize"
                match chatId with
                | None | Some EmptyString => [("client_id", CLIENT_ID)]
                | Some chat => [("client_id", CLIENT_ID); ("state", chat)]
                end) /\
      status r = 302 /\
      getSetCookie (headers r) = [].
Proof.
  intros buildUrl requestAccessToken requestUserInfo createToken serializeToken URL_href
    code chatId CLIENT_ID CLIENT_SECRET JWT_SECRET s Hcode.
  eexists. split.
  - apply handleLogin_without_code. destruct Hcode as [-> | ->]; reflexivity.
  - simpl. split; [|split; reflexivity].
    destruct chatId as [[|ch rest]|]; reflexivity.
Qed.

Lemma login_without_code_goes_to_github_witness :
  exists r,
    LoginExamples.login (Some EmptyString) (Some "chat42") tt = (Return r, tt) /\
    headers_get "Location" (headers r)
    = Some "https://github.com/login/oauth/authorize?client_id=client-id&state=chat42".
Proof.
  destruct (login_without_code_goes_to_github
              LoginExamples.buildUrl LoginExamples.requestAccessToken
              LoginExamples.requestUserInfo LoginExamples.createToken
              Codec.serializeToken LoginExamples.URL_href
              (Some EmptyString) (Some "chat42") "client-id" "client-secret" "s3cret" tt
              (or_intror eq_refl)) as (r & Hr & Hloc & _).
  exists r. split; [exact Hr | exact Hloc].
Defined.





(** * Properties of the client *)

(** ** The exchange of the OpenRouter code *)

Section SearchParamsFacts.

Lemma searchParams_get_delete_eq (name : string) (params : list (string * string)) :
  Login.searchParams_get name (Settings.searchParams_delete name params) = None.
Proof.
  unfold Login.searchParams_get, Settings.searchParams_delete.
  induction params as [|[n v] params IH]; [reflexivity|]. simpl.
  destruct (String.eqb n name) eqn:Hn; simpl; [exact IH|].
  rewrite Hn. exact IH.
Qed.

Lemma searchParams_get_delete_ne (name other : string) (params : list (string * string)) :
  other <> name ->
  Login.searchParams_get other (Settings.searchParams_delete name params)
  = Login.searchParams_get other params.
Proof.
  intros Hne. unfold Login.searchParams_get, Settings.searchParams_delete.
  induction params as [|[n v] params IH]; [reflexivity|]. simpl.
  destruct (String.eqb n name) eqn:Hn; simpl.
  - apply String.eqb_eq in Hn. subst n.
    assert (String.eqb name other = false) as ->
      by (apply String.eqb_neq; congruence).
    exact IH.
  - destruct (String.eqb n other); [reflexivity | exact IH].
Qed.

Lemma searchParams_delete_all (name : string) (params : list (string * string)) :
  Forall (fun p => fst p = name) params ->
  Settings.searchParams_delete name params = [].
Proof.
  unfold Settings.searchParams_delete.
  induction 1 as [|[n v] params Hn _ IH]; [reflexivity|]. simpl in *.
  subst n. rewrite String.eqb_refl. exact IH.
Qed.

Lemma append_empty (s : string) : s +:+ EmptyString = s.
Proof.
  induction s as [|c s IH]; [reflexivity|].
  change (String c (s +:+ EmptyString) = String c s). f_equal. exact IH.
Qed.

End SearchParamsFacts.

(** X13: when the page is opened with a [code] and OpenRouter answers with a
    JSON object that has a [key], whatever JSON value that is, the settings
    written to local storage are the current ones with [apiKey] replaced by it
    and every other setting as it was; the address is then replaced by origin,
    path and hash followed by the remaining parameters, serialized without a
    question mark: the [code] is gone from them, the other parameters keep
    their values, and when [code] was the only parameter the address is
    origin, path and hash alone. *)
Theorem code_exchange_stores_the_key_and_strips_the_code :
  forall (encode : string -> string) (state : gmap string Settings.Value)
         (location : Settings.Location) (searchParams : list (string * string))
         (code : string) (response : Settings.FetchResponse)
         (members : list (string * Settings.Json)) (key : Settings.Json),
    truthy (Login.searchParams_get "code" searchParams) = Some code ->
    Settings.json response = Promises.Fulfilled (Settings.JObject members) ->
    Settings.member "key" members = Some key ->
    exists settings url,
      Settings.onOpenRouterCode encode state location searchParams
        (Promises.Fulfilled response)
      = [ Settings.Fetch "https://openrouter.ai/api/v1/auth/keys" "POST"
            (Settings.JObject [("code", Settings.JString code)]);
          Settings.SetSettings settings;
          Settings.ReplaceState url ] /\
      settings !! "apiKey" = Some (Settings.VJson key) /\
      (forall name, name <> "apiKey" -> settings !! name = state !! name) /\
      url = Settings.origin location +:+ Settings.pathname location +:+
            Settings.hash location +:+
            Settings.searchParams_toString encode
              (Settings.searchParams_delete "code" searchParams) /\
      Login.searchParams_get "code" (Settings.searchParams_delete "code" searchParams)
        = None /\
      (forall name, name <> "code" ->
         Login.searchParams_get name (Settings.searchParams_delete "code" searchParams)
         = Login.searchParams_get name searchParams) /\
      (Forall (fun p => fst p = "code") searchParams ->
       url = Settings.origin location +:+ Settings.pathname location +:+
             Settings.hash location).
Proof.
  intros encode state location searchParams code response members key Hcode Hjson Hkey.
  eexists _, _. split.
  - unfold Settings.onOpenRouterCode. rewrite Hcode.
    unfold Settings.handleOpenRouterCodeExchange. simpl.
    rewrite Hjson. simpl. rewrite Hkey. simpl. reflexivity.
  - split; [apply lookup_insert_eq|].
    split; [intros name Hne; apply lookup_insert_ne; congruence|].
    split; [reflexivity|].
    split; [apply searchParams_get_delete_eq|].
    split; [intros name Hne; apply searchParams_get_delete_ne; exact Hne|].
    intros Honly. rewrite (searchParams_delete_all _ _ Honly).
    unfold Settings.searchParams_toString, join. simpl.
    rewrite append_empty. reflexivity.
Qed.

Lemma code_exchange_stores_the_key_and_strips_the_code_witness :
  exists settings,
    Settings.onOpenRouterCode (fun s => s)
      {["apiUrl" := Settings.VJson (Settings.JString "https://openrouter.ai/api/v1")]}
      {| Settings.origin := "https://chatcraft.org"; Settings.pathname := "/";
         Settings.hash := "#top" |}
      [("code", "abc")]
      (Promises.Fulfilled
         {| Settings.json :=
              Promises.Fulfilled
                (Settings.JObject [("key", Settings.JString "sk-or-123")]) |})
    = [ Settings.Fetch "https://openrouter.ai/api/v1/auth/keys" "POST"
          (Settings.JObject [("code", Settings.JString "abc")]);
        Settings.SetSettings settings;
        Settings.ReplaceState "https://chatcraft.org/#top" ] /\
    settings !! "apiKey" = Some (Settings.VJson (Settings.JString "sk-or-123")) /\
    settings !! "apiUrl"
    = Some (Settings.VJson (Settings.JString "https://openrouter.ai/api/v1")).
Proof.
  destruct (code_exchange_stores_the_key_and_strips_the_code
              (fun s => s)
              {["apiUrl" := Settings.VJson (Settings.JString "https://openrouter.ai/api/v1")]}
              {| Settings.origin := "https://chatcraft.org"; Settings.pathname := "/";
                 Settings.hash := "#top" |}
              [("code", "abc")] "abc"
              {| Settings.json :=
                   Promises.Fulfilled
                     (Settings.JObject [("key", Settings.JString "sk-or-123")]) |}
              [("key", Settings.JString "sk-or-123")] (Settings.JString "sk-or-123")
              eq_refl eq_refl eq_refl)
    as (settings & url & Heff & Hkey & Hrest & _ & _ & _ & Honly).
  exists settings. rewrite Heff, (Honly ltac:(repeat constructor)).
  split; [reflexivity|]. split; [exact Hkey|].
  rewrite Hrest by discriminate. reflexivity.
Defined.

(** X14: when the request to OpenRouter fails, when its answer is not JSON,
    when the JSON is [null], or when it is a value without a [key], the
    exchange writes no setting and leaves the address as it is: after the
    request its one effect is an error on the console. *)
Theorem failed_code_exchange_changes_nothing :
  forall (encode : string -> string) (state : gmap string Settings.Value)
         (location : Settings.Location) (searchParams : list (string * string))
         (reply : Promises.Settled Settings.FetchResponse) (code : string),
    (forall response members key,
       reply = Promises.Fulfilled response ->
       Settings.json response = Promises.Fulfilled (Settings.JObject members) ->
       Settings.member "key" members <> Some key) ->
    exists message error,
      Promises.effects
        (Settings.handleOpenRouterCodeExchange encode state location searchParams
           reply code)
      = [ Settings.Fetch "https://openrouter.ai/api/v1/auth/keys" "POST"
            (Settings.JObject [("code", Settings.JString code)]);
          Settings.ConsoleError message error ].
Proof.
  intros encode state location searchParams reply code Hnokey.
  unfold Settings.handleOpenRouterCodeExchange.
  destruct reply as [response|reason]; simpl; [|eauto].
  destruct (Settings.json response) as [data|reason] eqn:Hjson; simpl; [|eauto].
  destruct data as [| | | | |members]; simpl; eauto.
  destruct (Settings.member "key" members) as [key|] eqn:Hkey; simpl; [|eauto].
  exfalso. eapply Hnokey; eauto.
Qed.

Lemma failed_code_exchange_changes_nothing_witness :
  exists message error,
    Promises.effects
      (Settings.handleOpenRouterCodeExchange (fun s => s) ∅
         {| Settings.origin := "https://chatcraft.org"; Settings.pathname := "/";
            Settings.hash := EmptyString |}
         [("code", "abc")]
         (Promises.Fulfilled {| Settings.json := Promises.Fulfilled Settings.JNull |})
         "abc")
    = [ Settings.Fetch "https://openrouter.ai/api/v1/auth/keys" "POST"
          (Settings.JObject [("code", Settings.JString "abc")]);
        Settings.ConsoleError message error ].
Proof.
  apply failed_code_exchange_changes_nothing.
  intros response members key Hreply Hjson.
  inversion Hreply; subst. discriminate Hjson.
Defined.

(** X15: [updateSettings] hands the same object to the React state and to
    local storage.  In it a setting named in the new settings has the new
    value, also when that value is [undefined], which is how the preferences
    dialog removes the API key, and a setting that is not named keeps the
    value of the state; updating again with the same settings changes
    nothing. *)
Theorem updateSettings_merges_over_the_state :
  forall (state newSettings : gmap string Settings.Value),
  exists updated,
    Settings.updateSettings state newSettings
    = [Settings.SetState updated; Settings.SetSettings updated] /\
    (forall name value, newSettings !! name = Some value -> updated !! name = Some value) /\
    (forall name, newSettings !! name = None -> updated !! name = state !! name) /\
    Settings.updateSettings updated newSettings
    = Settings.updateSettings state newSettings.
Proof.
  intros state newSettings. exists (newSettings ∪ state).
  split; [reflexivity|]. split; [|split].
  - intros name value Hnew. apply lookup_union_Some_l. exact Hnew.
  - intros name Hnew. apply lookup_union_r. exact Hnew.
  - unfold Settings.updateSettings.
    rewrite (assoc_L (∪)), (idemp_L (∪)). reflexivity.
Qed.

Lemma updateSettings_merges_over_the_state_witness :
  exists updated,
    Settings.updateSettings
      {["apiKey" := Settings.VJson (Settings.JString "sk-123");
        "countTokens" := Settings.VJson (Settings.JBool true)]}
      {["apiKey" := Settings.VUndefined]}
    = [Settings.SetState updated; Settings.SetSettings updated] /\
    updated !! "apiKey" = Some Settings.VUndefined /\
    updated !! "countTokens" = Some (Settings.VJson (Settings.JBool true)).
Proof.
  destruct (updateSettings_merges_over_the_state
              {["apiKey" := Settings.VJson (Settings.JString "sk-123");
                "countTokens" := Settings.VJson (Settings.JBool true)]}
              {["apiKey" := Settings.VUndefined]})
    as (updated & Heff & Hnew & Hold & _).
  exists updated. split; [exact Heff|]. split.
  - apply Hnew. vm_compute. reflexivity.
  - rewrite Hold by (vm_compute; reflexivity). vm_compute. reflexivity.
Defined.

(** ** The summary of a chat *)

(** X16: submitting the summary form with a text sets the summary of the chat
    to that text before the save, and does not put the old one back when the
    save fails; however the save settles, the last thing that happens is that
    edit mode is left.  An error toast is shown exactly when the save is
    rejected with an object, with the [message] of that object, if it has
    one, as description.  A submission whose [summary] entry is not a text
    saves nothing, leaves the summary as it is and stays in edit mode. *)
Theorem save_summary_keeps_the_text_and_leaves_edit_mode :
  forall (summary : option string) (saved : Promises.Settled unit),
    (forall text,
       fst (ChatHeader.handleSaveSummary (ChatHeader.EntryString text) summary saved)
       = Some text /\
       (exists before,
          snd (ChatHeader.handleSaveSummary (ChatHeader.EntryString text) summary saved)
          = ChatHeader.PreventDefault :: ChatHeader.Save (Some text) :: before ++
            [ChatHeader.SetIsEditing false] /\
          forall title description,
            In (ChatHeader.Toast title description) before <->
            title = "Error Updating Chat" /\
            saved = Promises.Rejected (Promises.ThrownObject description))) /\
    (forall entry,
       (forall text, entry <> ChatHeader.EntryString text) ->
       ChatHeader.handleSaveSummary entry summary saved
       = (summary, [ChatHeader.PreventDefault])).
Proof.
  intros summary saved. split.
  - intros text. split; [reflexivity|].
    destruct saved as [[]|[message|]]; simpl.
    + exists []. split; [reflexivity|].
      intros title description. simpl. split; [tauto | intros [_ H]; discriminate H].
    + exists [ChatHeader.ConsoleWarn "Unable to update summary for chat";
              ChatHeader.Toast "Error Updating Chat" message].
      split; [reflexivity|].
      intros title description. simpl. split.
      * intros [H | [H | []]]; [discriminate H|]. inversion H. auto.
      * intros [-> H]. inversion H. auto.
    + exists [ChatHeader.ConsoleWarn "Unable to update summary for chat"].
      split; [reflexivity|].
      intros title description. simpl. split.
      * intros [H | []]. discriminate H.
      * intros [_ H]. discriminate H.
  - intros entry Hnot. destruct entry as [|name|text]; try reflexivity.
    exfalso. apply (Hnot text). reflexivity.
Qed.

Lemma save_summary_keeps_the_text_and_leaves_edit_mode_witness :
  fst (ChatHeader.handleSaveSummary (ChatHeader.EntryString "Trip plans") (Some "Untitled")
         (Promises.Rejected Promises.ThrownPrimitive))
  = Some "Trip plans" /\
  ChatHeader.handleSaveSummary (ChatHeader.EntryFile "notes.txt") (Some "Untitled")
    (Promises.Rejected Promises.ThrownPrimitive)
  = (Some "Untitled", [ChatHeader.PreventDefault]).
Proof.
  destruct (save_summary_keeps_the_text_and_leaves_edit_mode
              (Some "Untitled") (Promises.Rejected Promises.ThrownPrimitive))
    as [Htext Hother].
  split.
  - apply (Htext "Trip plans").
  - apply Hother. intros text. discriminate.
Defined.

(** ** The check of the API key *)

(** X17: the preferences dialog marks the API key as valid only after
    [validateOpenAiApiKey] was called on it and was fulfilled with [true].
    Without a key, or with an empty one, the key is marked invalid and nothing
    is validated; a check that is fulfilled with [false] or rejected marks it
    invalid as well.  The mark is the last effect in every case. *)
Theorem api_key_is_valid_only_after_a_positive_check :
  forall (validateOpenAiApiKey : string -> Promises.Settled bool)
         (apiKey : option string),
    (last (Preferences.checkApiKey validateOpenAiApiKey apiKey)
     = Some (Preferences.SetIsApiKeyInvalid false) <->
     exists key,
       apiKey = Some key /\ key <> EmptyString /\
       validateOpenAiApiKey key = Promises.Fulfilled true) /\
    (last (Preferences.checkApiKey validateOpenAiApiKey apiKey)
     = Some (Preferences.SetIsApiKeyInvalid false) \/
     last (Preferences.checkApiKey validateOpenAiApiKey apiKey)
     = Some (Preferences.SetIsApiKeyInvalid true)) /\
    (forall key,
       In (Preferences.Validate key) (Preferences.checkApiKey validateOpenAiApiKey apiKey) ->
       apiKey = Some key /\ key <> EmptyString).
Proof.
  intros validate apiKey. unfold Preferences.checkApiKey.
  destruct apiKey as [[|c rest]|]; simpl.
  - split; [|split].
    + split; [discriminate|]. intros (key & Hkey & Hne & _). congruence.
    + right. reflexivity.
    + intros key [H | []]. discriminate H.
  - destruct (validate (String c rest)) as [[|]|reason] eqn:Hv; simpl.
    + split; [|split].
      * split; [|reflexivity]. intros _. exists (String c rest).
        split; [reflexivity|]. split; [discriminate | exact Hv].
      * left. reflexivity.
      * intros key [H | [H | []]]; [|discriminate H].
        inversion H. split; [reflexivity | discriminate].
    + split; [|split].
      * split; [discriminate|]. intros (key & Hkey & _ & Hkv).
        inversion Hkey; subst. congruence.
      * right. reflexivity.
      * intros key [H | [H | []]]; [|discriminate H].
        inversion H. split; [reflexivity | discriminate].
    + split; [|split].
      * split; [discriminate|]. intros (key & Hkey & _ & Hkv).
        inversion Hkey; subst. congruence.
      * right. reflexivity.
      * intros key [H | [H | [H | []]]]; try discriminate H.
        inversion H. split; [reflexivity | discriminate].
  - split; [|split].
    + split; [discriminate|]. intros (key & Hkey & _). discriminate Hkey.
    + right. reflexivity.
    + intros key [H | []]. discriminate H.
Qed.

Lemma api_key_is_valid_only_after_a_positive_check_witness :
  last (Preferences.checkApiKey
          (fun key => if String.eqb key "sk-good"
                      then Promises.Fulfilled true
                      else Promises.Rejected (Promises.ThrownObject (Some "401")))
          (Some "sk-good"))
  = Some (Preferences.SetIsApiKeyInvalid false).
Proof.
  apply (api_key_is_valid_only_after_a_positive_check
           (fun key => if String.eqb key "sk-good"
                       then Promises.Fulfilled true
                       else Promises.Rejected (Promises.ThrownObject (Some "401")))
           (Some "sk-good")).
  exists "sk-good". split; [reflexivity|]. split; [discriminate | reflexivity].
Defined.
